(** * SPI_Baremetal: the polled SPI1 master driver of [spi_baremetal.c]

    The driver talks to the hardware only through volatile 32-bit accesses to
    fixed addresses.  The embedding keeps this shape: a register file keyed
    by address, a log of every bus access in issue order, and a small state
    monad in which the C statements are written one access at a time.  The
    status and data registers are driven by the peripheral, not by the
    program, so their reads are answered by two scripts (the value of the
    k-th status read, the value of the k-th data read); every other register
    reads back what was last stored. *)

From Stdlib Require Import ZArith List Bool Lia.
Import ListNotations.
Local Open Scope Z_scope.

(** ** Machine integers *)

(** Conversion to [uint32_t]. *)
Definition wrap32 (z : Z) : Z := z mod 2 ^ 32.

(** Conversion to [uint8_t]. *)
Definition wrap8 (z : Z) : Z := z mod 2 ^ 8.

(** A value of type [int] (32 bits, two's complement). *)
Definition sint32 (z : Z) : Z := (z + 2 ^ 31) mod 2 ^ 32 - 2 ^ 31.

(** [a << b] on [int] operands. *)
Definition shl (a b : Z) : Z := sint32 (Z.shiftl a b).

(** [~a] on an [int] operand. *)
Definition bnot (a : Z) : Z := sint32 (Z.lnot a).

(** [a | b] on [int] operands. *)
Definition bor (a b : Z) : Z := sint32 (Z.lor a b).

(** C truth of an integer. *)
Definition truthy (z : Z) : bool := negb (z =? 0).

(** ** Register addresses *)

Definition SPI1_BASE_ADDR : Z := 0x40013000.
Definition RCC_BASE_ADDR : Z := 0x40023800.
Definition GPIOA_BASE_ADDR : Z := 0x40020000.

Definition SPI1_CR1 : Z := SPI1_BASE_ADDR + 0x00.
Definition SPI1_CR2 : Z := SPI1_BASE_ADDR + 0x04.
Definition SPI1_SR : Z := SPI1_BASE_ADDR + 0x08.
Definition SPI1_DR : Z := SPI1_BASE_ADDR + 0x0C.

Definition RCC_AHB1ENR : Z := RCC_BASE_ADDR + 0x30.
Definition RCC_APB2ENR : Z := RCC_BASE_ADDR + 0x44.

Definition GPIOA_MODER : Z := GPIOA_BASE_ADDR + 0x00.
Definition GPIOA_AFRL : Z := GPIOA_BASE_ADDR + 0x20.
Definition GPIOA_ODR : Z := GPIOA_BASE_ADDR + 0x14.

Definition NSS_PIN : Z := shl 1 4.
Definition SCK_PIN : Z := shl 1 5.
Definition MISO_PIN : Z := shl 1 6.
Definition MOSI_PIN : Z := shl 1 7.

(** ** Bus accesses and the register file *)

Inductive Event : Type :=
| EvRead (addr val : Z)
| EvWrite (addr val : Z).

Record World : Type := mkWorld {
  mem : Z -> Z;            (* last value stored at each address *)
  sr_count : nat;          (* status-register reads answered so far *)
  dr_count : nat;          (* data-register reads answered so far *)
  log : list Event         (* every access, newest first *)
}.

(** The accesses in issue order. *)
Definition trace (w : World) : list Event := rev (log w).

Definition upd (m : Z -> Z) (a v : Z) : Z -> Z :=
  fun x => if x =? a then v else m x.

(** A register file with every register holding [v0] and no access made. *)
Definition idle_world (v0 : Z) : World := mkWorld (fun _ => v0) 0 0 [].

Definition all_ones : World := idle_world 0xFFFFFFFF.

(** ** Reading a trace *)

Definition is_write_to (a : Z) (e : Event) : bool :=
  match e with
  | EvWrite a' _ => a' =? a
  | EvRead _ _ => false
  end.

Definition is_read_of (a : Z) (e : Event) : bool :=
  match e with
  | EvRead a' _ => a' =? a
  | EvWrite _ _ => false
  end.

Definition ev_val (e : Event) : Z :=
  match e with
  | EvRead _ v => v
  | EvWrite _ v => v
  end.

(** The values written to [a], oldest first. *)
Definition writes_to (a : Z) (t : list Event) : list Z :=
  map ev_val (filter (is_write_to a) t).

(** The values read from [a], oldest first. *)
Definition reads_of (a : Z) (t : list Event) : list Z :=
  map ev_val (filter (is_read_of a) t).

(** ** The monad of driver code

    State passing.  A run either returns a value or is still spinning in a
    busy-wait when its iteration budget is used up; both outcomes keep the
    register file reached, so that what a stuck call did before it got
    stuck can be read off as well. *)

Inductive Outcome (A : Type) : Type :=
| Done (a : A) (w : World)
| Stalled (w : World).
Arguments Done {A} a w.
Arguments Stalled {A} w.

Definition world_of {A : Type} (o : Outcome A) : World :=
  match o with
  | Done _ w => w
  | Stalled w => w
  end.

Definition M (A : Type) : Type := World -> Outcome A.

Definition ret {A : Type} (a : A) : M A := fun w => Done a w.

Definition bind {A B : Type} (m : M A) (k : A -> M B) : M B :=
  fun w => match m w with
           | Done a w' => k a w'
           | Stalled w' => Stalled w'
           end.

Definition stall {A : Type} : M A := fun w => Stalled w.

Declare Scope drv_scope.
Delimit Scope drv_scope with drv.
Notation "x <- m ;; k" := (bind m (fun x => k))
  (at level 61, m at next level, right associativity) : drv_scope.
Notation "m ;;; k" := (bind m (fun _ => k))
  (at level 61, right associativity) : drv_scope.
Local Open Scope drv_scope.

(** Scripts for the peripheral's answers: flags ready at once (TXE and
    RXNE set, BSY clear); TXE held clear (and BSY set) for three reads,
    then ready; nothing ever raised. *)
Definition ready_sr : nat -> Z := fun _ => 0x03.
Definition slow_sr : nat -> Z :=
  fun k => if (k <? 3)%nat then 0x80 else 0x03.
Definition silent_sr : nat -> Z := fun _ => 0.

Definition dr_AA : nat -> Z := fun _ => 0xAA.
Definition dr_3C : nat -> Z := fun _ => 0x3C.

Section Driver.

(** The peripheral's answers: [sr_script k] is what the k-th read of the
    status register returns, [dr_script k] what the k-th read of the data
    register returns (counting from 0). *)
Variable sr_script : nat -> Z.
Variable dr_script : nat -> Z.

(** A volatile read of the 32-bit word at [a]. *)
Definition load (a : Z) : M Z := fun w =>
  if a =? SPI1_SR then
    let v := wrap32 (sr_script (sr_count w)) in
    Done v (mkWorld (mem w) (S (sr_count w)) (dr_count w)
                    (EvRead a v :: log w))
  else if a =? SPI1_DR then
    let v := wrap32 (dr_script (dr_count w)) in
    Done v (mkWorld (mem w) (sr_count w) (S (dr_count w))
                    (EvRead a v :: log w))
  else
    let v := wrap32 (mem w a) in
    Done v (mkWorld (mem w) (sr_count w) (dr_count w)
                    (EvRead a v :: log w)).

(** A volatile write of the 32-bit word at [a]. *)
Definition store (a v : Z) : M unit := fun w =>
  Done tt (mkWorld (upd (mem w) a (wrap32 v)) (sr_count w) (dr_count w)
                   (EvWrite a (wrap32 v) :: log w)).

(** [REG |= x;] and [REG &= x;]: one read, then one write. *)
Definition or_assign (a x : Z) : M unit :=
  v <- load a ;; store a (Z.lor v (wrap32 x)).

Definition and_assign (a x : Z) : M unit :=
  v <- load a ;; store a (Z.land v (wrap32 x)).

(** [while (cond);] with an empty body, at most [fuel] evaluations of the
    condition. *)
Fixpoint while_ (fuel : nat) (cond : M bool) : M unit :=
  match fuel with
  | O => stall
  | S fuel' => b <- cond ;; if b then while_ fuel' cond else ret tt
  end.

(** [spi_init] *)
Definition spi_init : M unit :=
  or_assign RCC_AHB1ENR (shl 1 0) ;;;
  or_assign RCC_APB2ENR (shl 1 12) ;;;
  and_assign GPIOA_MODER
    (bnot (bor (bor (bor (shl 3 8) (shl 3 10)) (shl 3 12)) (shl 3 14))) ;;;
  or_assign GPIOA_MODER
    (bor (bor (bor (shl 2 8) (shl 2 10)) (shl 2 12)) (shl 2 14)) ;;;
  and_assign GPIOA_AFRL
    (bnot (bor (bor (bor (shl 0xF 16) (shl 0xF 20)) (shl 0xF 24))
               (shl 0xF 28))) ;;;
  or_assign GPIOA_AFRL
    (bor (bor (bor (shl 5 16) (shl 5 20)) (shl 5 24)) (shl 5 28)) ;;;
  store SPI1_CR1 0 ;;;
  or_assign SPI1_CR1 (shl 1 2) ;;;
  or_assign SPI1_CR1 (shl 3 3) ;;;
  or_assign SPI1_CR1 (shl 0 1) ;;;
  or_assign SPI1_CR1 (shl 0 0) ;;;
  or_assign SPI1_CR1 (shl 1 6).

(** [spi_transmit]; the parameter is a [uint8_t]. *)
Definition spi_transmit (fuel : nat) (data : Z) : M unit :=
  while_ fuel (v <- load SPI1_SR ;;
               ret (negb (truthy (Z.land v (wrap32 (shl 1 1)))))) ;;;
  store SPI1_DR (wrap8 data) ;;;
  while_ fuel (v <- load SPI1_SR ;;
               ret (truthy (Z.land v (wrap32 (shl 1 7))))).

(** [spi_receive]; the 32-bit word read is returned as a [uint8_t]. *)
Definition spi_receive (fuel : nat) : M Z :=
  while_ fuel (v <- load SPI1_SR ;;
               ret (negb (truthy (Z.land v (wrap32 (shl 1 0)))))) ;;;
  v <- load SPI1_DR ;;
  ret (wrap8 v).

(** [spi_exchange_data]: the function is [void]; [received_data] is a
    local that nothing reads. *)
Definition spi_exchange_data (fuel : nat) (data : Z) : M unit :=
  and_assign GPIOA_ODR (bnot NSS_PIN) ;;;
  spi_transmit fuel (wrap8 data) ;;;
  received_data <- spi_receive fuel ;;
  or_assign GPIOA_ODR NSS_PIN.

(** ** What one access does to the register file *)

(** The value the k-th status read yields. *)
Definition srv (k : nat) : Z := wrap32 (sr_script k).

(** The value the k-th data read yields. *)
Definition drv (k : nat) : Z := wrap32 (dr_script k).

Definition stored (a v : Z) (w : World) : World :=
  mkWorld (upd (mem w) a (wrap32 v)) (sr_count w) (dr_count w)
          (EvWrite a (wrap32 v) :: log w).

Definition loaded_mem (a : Z) (w : World) : World :=
  mkWorld (mem w) (sr_count w) (dr_count w)
          (EvRead a (wrap32 (mem w a)) :: log w).

Definition loaded_dr (w : World) : World :=
  mkWorld (mem w) (sr_count w) (S (dr_count w))
          (EvRead SPI1_DR (drv (dr_count w)) :: log w).

Definition loaded_sr (w : World) : World :=
  mkWorld (mem w) (S (sr_count w)) (dr_count w)
          (EvRead SPI1_SR (srv (sr_count w)) :: log w).

(** The word [REG |= x;] and [REG &= x;] store when [REG] held [v]. *)
Definition or32 (v x : Z) : Z := wrap32 (Z.lor (wrap32 v) (wrap32 x)).
Definition and32 (v x : Z) : Z := wrap32 (Z.land (wrap32 v) (wrap32 x)).

Definition rmw_or (a x : Z) (w : World) : World :=
  stored a (Z.lor (wrap32 (mem w a)) (wrap32 x)) (loaded_mem a w).

Definition rmw_and (a x : Z) (w : World) : World :=
  stored a (Z.land (wrap32 (mem w a)) (wrap32 x)) (loaded_mem a w).

(** ** Busy-waits on the status register *)

(** The [n] status reads numbered [c], [c+1], ... *)
Definition sr_events (c n : nat) : list Event :=
  map (fun k => EvRead SPI1_SR (srv k)) (seq c n).

Definition polled (n : nat) (w : World) : World :=
  mkWorld (mem w) (sr_count w + n) (dr_count w)
          (rev (sr_events (sr_count w) n) ++ log w).

(** A busy-wait that keeps spinning while [spin v] holds of the value
    read. *)
Definition sr_wait (spin : Z -> bool) (fuel : nat) : M unit :=
  while_ fuel (v <- load SPI1_SR ;; ret (spin v)).

(** The three conditions under which the driver keeps spinning. *)
Definition txe_clear (v : Z) : bool :=
  negb (truthy (Z.land v (wrap32 (shl 1 1)))).
Definition bsy_set (v : Z) : bool :=
  truthy (Z.land v (wrap32 (shl 1 7))).
Definition rxne_clear (v : Z) : bool :=
  negb (truthy (Z.land v (wrap32 (shl 1 0)))).

(** The status reads numbered [c .. c+n-1] all keep the wait spinning. *)
Definition spinning (spin : Z -> bool) (c n : nat) : Prop :=
  forall j, (j < n)%nat -> spin (srv (c + j)) = true.

(** A wait that starts with status read number [c] spins [n] times and
    leaves at its read number [c + n]. *)
Definition observed (spin : Z -> bool) (c n : nat) : Prop :=
  spinning spin c n /\ spin (srv (c + n)) = false.

(** ** The stages of one exchange *)

(** The words the two chip-select statements write, from the word read. *)
Definition cs_low (o : Z) : Z := and32 o (bnot NSS_PIN).
Definition cs_high (o : Z) : Z := or32 o NSS_PIN.

(** [GPIOA_ODR &= ~NSS_PIN;] and [GPIOA_ODR |= NSS_PIN;] *)
Definition selected (w : World) : World := rmw_and GPIOA_ODR (bnot NSS_PIN) w.
Definition deselected (w : World) : World := rmw_or GPIOA_ODR NSS_PIN w.

(** The register file after [k] status reads of the TXE wait; after the
    TXE wait spun [n1] times, the byte was written and the BSY wait made
    [k] status reads; after the BSY wait spun [n2] times and the RXNE
    wait made [k] status reads. *)
Definition waiting_txe (k : nat) (w : World) : World :=
  polled k (selected w).

Definition waiting_bsy (data : Z) (n1 k : nat) (w : World) : World :=
  polled k (stored SPI1_DR (wrap8 (wrap8 data)) (waiting_txe (S n1) w)).

Definition waiting_rxne (data : Z) (n1 n2 k : nat) (w : World) : World :=
  polled k (waiting_bsy data n1 (S n2) w).

(** The register file a returning exchange leaves, given how long each
    of the three waits spun. *)
Definition exchanged (data : Z) (n1 n2 n3 : nat) (w : World) : World :=
  deselected (loaded_dr (waiting_rxne data n1 n2 (S n3) w)).

(** The accesses of the stages, in issue order. *)
Definition select_events (w : World) : list Event :=
  [EvRead GPIOA_ODR (wrap32 (mem w GPIOA_ODR));
   EvWrite GPIOA_ODR (cs_low (mem w GPIOA_ODR))].

Definition txe_events (k : nat) (w : World) : list Event :=
  select_events w ++ sr_events (sr_count w) k.

Definition bsy_events (data : Z) (n1 k : nat) (w : World) : list Event :=
  (txe_events n1 w ++ [EvRead SPI1_SR (srv (sr_count w + n1))]) ++
  EvWrite SPI1_DR (wrap8 data) :: sr_events (sr_count w + S n1) k.

Definition rxne_events (data : Z) (n1 n2 k : nat) (w : World)
  : list Event :=
  (txe_events n1 w ++ [EvRead SPI1_SR (srv (sr_count w + n1))]) ++
  EvWrite SPI1_DR (wrap8 data) ::
  (sr_events (sr_count w + S n1) (S n2) ++
   sr_events (sr_count w + S n1 + S n2) k).

Definition deselect_events (w : World) : list Event :=
  [EvRead GPIOA_ODR (cs_low (mem w GPIOA_ODR));
   EvWrite GPIOA_ODR (cs_high (cs_low (mem w GPIOA_ODR)))].

Definition exchange_events (data : Z) (n1 n2 n3 : nat) (w : World)
  : list Event :=
  (rxne_events data n1 n2 n3 w ++
   [EvRead SPI1_SR (srv (sr_count w + S n1 + S n2 + n3))]) ++
  EvRead SPI1_DR (drv (dr_count w)) :: deselect_events w.

(** How far a call of [spi_exchange_data] gets on a given budget. *)
Inductive Progress (fuel : nat) (data : Z) (w : World)
  : Outcome unit -> Prop :=
| StuckTxe :
    spinning txe_clear (sr_count w) fuel ->
    Progress fuel data w (Stalled (waiting_txe fuel w))
| StuckBsy (n1 : nat) :
    (n1 < fuel)%nat ->
    observed txe_clear (sr_count w) n1 ->
    spinning bsy_set (sr_count w + S n1) fuel ->
    Progress fuel data w (Stalled (waiting_bsy data n1 fuel w))
| StuckRxne (n1 n2 : nat) :
    (n1 < fuel)%nat -> (n2 < fuel)%nat ->
    observed txe_clear (sr_count w) n1 ->
    observed bsy_set (sr_count w + S n1) n2 ->
    spinning rxne_clear (sr_count w + S n1 + S n2) fuel ->
    Progress fuel data w (Stalled (waiting_rxne data n1 n2 fuel w))
| Returned (n1 n2 n3 : nat) :
    (n1 < fuel)%nat -> (n2 < fuel)%nat -> (n3 < fuel)%nat ->
    observed txe_clear (sr_count w) n1 ->
    observed bsy_set (sr_count w + S n1) n2 ->
    observed rxne_clear (sr_count w + S n1 + S n2) n3 ->
    Progress fuel data w (Done tt (exchanged data n1 n2 n3 w)).

(** ** The stages of initialisation *)

(** The operands of the four pin-configuration statements. *)
Definition moder_clear : Z :=
  bnot (bor (bor (bor (shl 3 8) (shl 3 10)) (shl 3 12)) (shl 3 14)).
Definition moder_set : Z :=
  bor (bor (bor (shl 2 8) (shl 2 10)) (shl 2 12)) (shl 2 14).
Definition afrl_clear : Z :=
  bnot (bor (bor (bor (shl 0xF 16) (shl 0xF 20)) (shl 0xF 24))
            (shl 0xF 28)).
Definition afrl_set : Z :=
  bor (bor (bor (shl 5 16) (shl 5 20)) (shl 5 24)) (shl 5 28).

Definition clocks_enabled (w : World) : World :=
  rmw_or RCC_APB2ENR (shl 1 12) (rmw_or RCC_AHB1ENR (shl 1 0) w).

Definition pins_configured (w : World) : World :=
  rmw_or GPIOA_AFRL afrl_set
    (rmw_and GPIOA_AFRL afrl_clear
       (rmw_or GPIOA_MODER moder_set
          (rmw_and GPIOA_MODER moder_clear w))).

Definition cr1_configured (w : World) : World :=
  rmw_or SPI1_CR1 (shl 1 6)
    (rmw_or SPI1_CR1 (shl 0 0)
       (rmw_or SPI1_CR1 (shl 0 1)
          (rmw_or SPI1_CR1 (shl 3 3)
             (rmw_or SPI1_CR1 (shl 1 2)
                (stored SPI1_CR1 0 w))))).

Definition initialized (w : World) : World :=
  cr1_configured (pins_configured (clocks_enabled w)).

(** The accesses of [spi_init], in issue order, from the register values
    [m] it starts with. *)
Definition clock_events (m : Z -> Z) : list Event :=
  [EvRead RCC_AHB1ENR (wrap32 (m RCC_AHB1ENR));
   EvWrite RCC_AHB1ENR (or32 (m RCC_AHB1ENR) (shl 1 0));
   EvRead RCC_APB2ENR (wrap32 (m RCC_APB2ENR));
   EvWrite RCC_APB2ENR (or32 (m RCC_APB2ENR) (shl 1 12))].

Definition pin_events (m : Z -> Z) : list Event :=
  [EvRead GPIOA_MODER (wrap32 (m GPIOA_MODER));
   EvWrite GPIOA_MODER (and32 (m GPIOA_MODER) moder_clear);
   EvRead GPIOA_MODER (and32 (m GPIOA_MODER) moder_clear);
   EvWrite GPIOA_MODER
     (or32 (and32 (m GPIOA_MODER) moder_clear) moder_set);
   EvRead GPIOA_AFRL (wrap32 (m GPIOA_AFRL));
   EvWrite GPIOA_AFRL (and32 (m GPIOA_AFRL) afrl_clear);
   EvRead GPIOA_AFRL (and32 (m GPIOA_AFRL) afrl_clear);
   EvWrite GPIOA_AFRL
     (or32 (and32 (m GPIOA_AFRL) afrl_clear) afrl_set)].

Definition cr1_events : list Event :=
  [EvWrite SPI1_CR1 0;
   EvRead SPI1_CR1 0; EvWrite SPI1_CR1 0x04;
   EvRead SPI1_CR1 0x04; EvWrite SPI1_CR1 0x1C;
   EvRead SPI1_CR1 0x1C; EvWrite SPI1_CR1 0x1C;
   EvRead SPI1_CR1 0x1C; EvWrite SPI1_CR1 0x1C;
   EvRead SPI1_CR1 0x1C; EvWrite SPI1_CR1 0x5C].

Definition init_events (m : Z -> Z) : list Event :=
  clock_events m ++ pin_events m ++ cr1_events.

(** ** [main] and the functions called on their own *)

(** [while (cond) body], at most [rounds] times round the loop. *)
Fixpoint while_do (rounds : nat) (cond : M bool) (body : M unit) : M unit :=
  match rounds with
  | O => stall
  | S rounds' =>
      b <- cond ;;
      if b then body ;;; while_do rounds' cond body else ret tt
  end.

(** [main]: [spi_init], then [spi_exchange_data(0x55)] for ever; the
    [return 0] sits behind the loop. *)
Definition main (rounds fuel : nat) : M Z :=
  spi_init ;;;
  while_do rounds (ret (truthy 1)) (spi_exchange_data fuel 0x55) ;;;
  ret 0.

(** The register file of [spi_transmit] after the TXE wait spun [n1]
    times, the byte was written and the BSY wait made [k] status reads. *)
Definition transmitting (data : Z) (n1 k : nat) (w : World) : World :=
  polled k (stored SPI1_DR (wrap8 data) (polled (S n1) w)).

(** The register file [spi_receive] leaves after its wait spun [n]
    times. *)
Definition received (n : nat) (w : World) : World :=
  loaded_dr (polled (S n) w).

(** How far a call of [spi_transmit] gets on a given budget. *)
Inductive TxProgress (fuel : nat) (data : Z) (w : World)
  : Outcome unit -> Prop :=
| TxStuckTxe :
    spinning txe_clear (sr_count w) fuel ->
    TxProgress fuel data w (Stalled (polled fuel w))
| TxStuckBsy (n1 : nat) :
    (n1 < fuel)%nat ->
    observed txe_clear (sr_count w) n1 ->
    spinning bsy_set (sr_count w + S n1) fuel ->
    TxProgress fuel data w (Stalled (transmitting data n1 fuel w))
| TxReturned (n1 n2 : nat) :
    (n1 < fuel)%nat -> (n2 < fuel)%nat ->
    observed txe_clear (sr_count w) n1 ->
    observed bsy_set (sr_count w + S n1) n2 ->
    TxProgress fuel data w (Done tt (transmitting data n1 (S n2) w)).

(** A status script on which no wait ever spins: TXE and RXNE always
    set, BSY always clear. *)
Definition always_ready : Prop :=
  forall k, Z.testbit (srv k) 1 = true /\
            Z.testbit (srv k) 7 = false /\
            Z.testbit (srv k) 0 = true.

(** The register file and the accesses after [n] exchanges of [data] on
    a status script on which no wait spins. *)
Fixpoint exchanged_n (n : nat) (data : Z) (w : World) : World :=
  match n with
  | O => w
  | S n' => exchanged_n n' data (exchanged data 0 0 0 w)
  end.

(** An access to one of the registers an exchange works on. *)
Definition is_transfer_access (e : Event) : bool :=
  match e with
  | EvRead a _ => (a =? GPIOA_ODR) || (a =? SPI1_SR) || (a =? SPI1_DR)
  | EvWrite a _ => (a =? GPIOA_ODR) || (a =? SPI1_DR)
  end.

(** An access to one of the registers [spi_init] works on. *)
Definition is_config_access (e : Event) : bool :=
  let a := match e with EvRead a _ => a | EvWrite a _ => a end in
  (a =? RCC_AHB1ENR) || (a =? RCC_APB2ENR) || (a =? GPIOA_MODER)
  || (a =? GPIOA_AFRL) || (a =? SPI1_CR1).

(** Every [p]-access of [t] comes strictly before every [q]-access. *)
Fixpoint all_before (p q : Event -> bool) (t : list Event) : bool :=
  match t with
  | [] => true
  | e :: t' =>
      (if q e then forallb (fun x => negb (p x)) t else true)
      && all_before p q t'
  end.

(** ** Machine integers, bit by bit *)

Lemma wrap32_testbit (z i : Z) :
  0 <= i < 32 -> Z.testbit (wrap32 z) i = Z.testbit z i.
Proof.
  intros Hi. unfold wrap32. apply Z.mod_pow2_bits_low. lia.
Qed.

Lemma wrap32_idem (z : Z) : wrap32 (wrap32 z) = wrap32 z.
Proof. unfold wrap32. apply Z.mod_mod. lia. Qed.

Lemma wrap8_range (z : Z) : 0 <= wrap8 z < 2 ^ 8.
Proof. unfold wrap8. apply Z.mod_pos_bound. lia. Qed.

Lemma wrap8_idem (z : Z) : wrap8 (wrap8 z) = wrap8 z.
Proof. unfold wrap8. apply Z.mod_mod. lia. Qed.

Lemma wrap32_wrap8 (z : Z) : wrap32 (wrap8 z) = wrap8 z.
Proof.
  unfold wrap32. apply Z.mod_small.
  pose proof (wrap8_range z). lia.
Qed.

Lemma and32_wrapped (v x : Z) : wrap32 (and32 v x) = and32 v x.
Proof. apply wrap32_idem. Qed.

Lemma or32_wrapped (v x : Z) : wrap32 (or32 v x) = or32 v x.
Proof. apply wrap32_idem. Qed.

Lemma or32_bits (v x i : Z) :
  0 <= i < 32 ->
  Z.testbit (or32 v x) i = Z.testbit v i || Z.testbit (wrap32 x) i.
Proof.
  intros Hi. unfold or32.
  rewrite wrap32_testbit, Z.lor_spec, wrap32_testbit by exact Hi.
  reflexivity.
Qed.

Lemma and32_bits (v x i : Z) :
  0 <= i < 32 ->
  Z.testbit (and32 v x) i = Z.testbit v i && Z.testbit (wrap32 x) i.
Proof.
  intros Hi. unfold and32.
  rewrite wrap32_testbit, Z.land_spec, wrap32_testbit by exact Hi.
  reflexivity.
Qed.

(** Testing one flag of a status word is testing its bit. *)
Lemma truthy_flag (v k : Z) :
  0 <= k < 31 ->
  truthy (Z.land v (wrap32 (shl 1 k))) = Z.testbit v k.
Proof.
  intros Hk.
  assert (Hs : wrap32 (shl 1 k) = 2 ^ k).
  { unfold shl, sint32, wrap32. rewrite Z.shiftl_1_l.
    assert (0 < 2 ^ k) by (apply Z.pow_pos_nonneg; lia).
    assert (2 ^ k < 2 ^ 31) by (apply Z.pow_lt_mono_r; lia).
    rewrite (Z.mod_small (2 ^ k + 2 ^ 31)) by lia.
    rewrite Z.mod_small; lia. }
  rewrite Hs. unfold truthy.
  destruct (Z.testbit v k) eqn:Hb.
  - destruct (Z.eqb_spec (Z.land v (2 ^ k)) 0) as [E|]; [|reflexivity].
    assert (Hc : Z.testbit (Z.land v (2 ^ k)) k = true).
    { rewrite Z.land_spec, Hb, Z.pow2_bits_true; [reflexivity|lia]. }
    rewrite E, Z.bits_0 in Hc. discriminate.
  - destruct (Z.eqb_spec (Z.land v (2 ^ k)) 0) as [|N]; [reflexivity|].
    exfalso. apply N. apply Z.bits_inj'. intros i Hi.
    rewrite Z.land_spec, Z.bits_0.
    destruct (Z.eq_dec i k) as [->|Hne].
    + rewrite Hb. reflexivity.
    + rewrite Z.pow2_bits_false by lia. apply andb_false_r.
Qed.

Lemma txe_clear_bit (v : Z) : txe_clear v = negb (Z.testbit v 1).
Proof. unfold txe_clear. rewrite truthy_flag by lia. reflexivity. Qed.

Lemma bsy_set_bit (v : Z) : bsy_set v = Z.testbit v 7.
Proof. unfold bsy_set. rewrite truthy_flag by lia. reflexivity. Qed.

Lemma rxne_clear_bit (v : Z) : rxne_clear v = negb (Z.testbit v 0).
Proof. unfold rxne_clear. rewrite truthy_flag by lia. reflexivity. Qed.

(** Bits of the 32-bit constants are settled index by index. *)
Lemma bit_index_cases (P : Z -> Prop) :
  Forall P (map Z.of_nat (seq 0 32)) ->
  forall i, 0 <= i < 32 -> P i.
Proof.
  intros H i Hi. rewrite Forall_forall in H. apply H.
  apply in_map_iff. exists (Z.to_nat i). split; [lia|].
  apply in_seq. lia.
Qed.

Ltac by_bit_index i Hi :=
  revert i Hi; apply bit_index_cases; cbn [seq map];
  repeat (apply Forall_cons; [vm_compute; reflexivity|]);
  apply Forall_nil.

Lemma nss_clear_bits (i : Z) :
  0 <= i < 32 -> Z.testbit (wrap32 (bnot NSS_PIN)) i = negb (i =? 4).
Proof. intros Hi. by_bit_index i Hi. Qed.

Lemma nss_set_bits (i : Z) :
  0 <= i < 32 -> Z.testbit (wrap32 NSS_PIN) i = (i =? 4).
Proof. intros Hi. by_bit_index i Hi. Qed.

Lemma cs_low_bits (o i : Z) :
  0 <= i < 32 ->
  Z.testbit (cs_low o) i = Z.testbit o i && negb (i =? 4).
Proof.
  intros Hi. unfold cs_low.
  rewrite and32_bits, nss_clear_bits by exact Hi. reflexivity.
Qed.

Lemma cs_high_bits (o i : Z) :
  0 <= i < 32 ->
  Z.testbit (cs_high o) i = Z.testbit o i || (i =? 4).
Proof.
  intros Hi. unfold cs_high.
  rewrite or32_bits, nss_set_bits by exact Hi. reflexivity.
Qed.

Lemma gpio_clock_bits (i : Z) :
  0 <= i < 32 -> Z.testbit (wrap32 (shl 1 0)) i = (i =? 0).
Proof. intros Hi. by_bit_index i Hi. Qed.

Lemma spi_clock_bits (i : Z) :
  0 <= i < 32 -> Z.testbit (wrap32 (shl 1 12)) i = (i =? 12).
Proof. intros Hi. by_bit_index i Hi. Qed.

Lemma moder_clear_bits (i : Z) :
  0 <= i < 32 ->
  Z.testbit (wrap32 moder_clear) i = negb ((8 <=? i) && (i <? 16)).
Proof. intros Hi. by_bit_index i Hi. Qed.

Lemma moder_set_bits (i : Z) :
  0 <= i < 32 ->
  Z.testbit (wrap32 moder_set) i =
  (8 <=? i) && (i <? 16) && Z.testbit 0xAA00 i.
Proof. intros Hi. by_bit_index i Hi. Qed.

Lemma afrl_clear_bits (i : Z) :
  0 <= i < 32 ->
  Z.testbit (wrap32 afrl_clear) i = negb (16 <=? i).
Proof. intros Hi. by_bit_index i Hi. Qed.

Lemma afrl_set_bits (i : Z) :
  0 <= i < 32 ->
  Z.testbit (wrap32 afrl_set) i = (16 <=? i) && Z.testbit 0x55550000 i.
Proof. intros Hi. by_bit_index i Hi. Qed.

(** ** Register lookups *)

Lemma upd_same (m : Z -> Z) (a v : Z) : upd m a v a = v.
Proof. unfold upd. rewrite Z.eqb_refl. reflexivity. Qed.

Lemma upd_other (m : Z -> Z) (a v x : Z) : x <> a -> upd m a v x = m x.
Proof.
  intros H. unfold upd. destruct (Z.eqb_spec x a); [contradiction|].
  reflexivity.
Qed.

Ltac addr_neq :=
  let H := fresh in intro H; vm_compute in H; discriminate H.

Ltac regs :=
  repeat first [rewrite upd_same | rewrite upd_other by addr_neq].

(** ** Single accesses *)

Lemma bind_run {A B : Type} (m : M A) (k : A -> M B)
      (w : World) (a : A) (w' : World) :
  m w = Done a w' -> bind m k w = k a w'.
Proof. intros H. unfold bind. rewrite H. reflexivity. Qed.

Lemma load_mem_run (a : Z) (w : World) :
  a <> SPI1_SR -> a <> SPI1_DR ->
  load a w = Done (wrap32 (mem w a)) (loaded_mem a w).
Proof.
  intros Hs Hd. unfold load.
  destruct (Z.eqb_spec a SPI1_SR); [contradiction|].
  destruct (Z.eqb_spec a SPI1_DR); [contradiction|].
  reflexivity.
Qed.

Lemma store_run (a v : Z) (w : World) :
  store a v w = Done tt (stored a v w).
Proof. reflexivity. Qed.

Lemma or_assign_run (a x : Z) (w : World) :
  a <> SPI1_SR -> a <> SPI1_DR ->
  or_assign a x w = Done tt (rmw_or a x w).
Proof.
  intros Hs Hd. unfold or_assign.
  rewrite (bind_run _ _ _ _ _ (load_mem_run a w Hs Hd)). reflexivity.
Qed.

Lemma and_assign_run (a x : Z) (w : World) :
  a <> SPI1_SR -> a <> SPI1_DR ->
  and_assign a x w = Done tt (rmw_and a x w).
Proof.
  intros Hs Hd. unfold and_assign.
  rewrite (bind_run _ _ _ _ _ (load_mem_run a w Hs Hd)). reflexivity.
Qed.

Lemma log_rmw_or (a x : Z) (w : World) :
  log (rmw_or a x w) =
  EvWrite a (or32 (mem w a) x) :: EvRead a (wrap32 (mem w a)) :: log w.
Proof. reflexivity. Qed.

Lemma log_rmw_and (a x : Z) (w : World) :
  log (rmw_and a x w) =
  EvWrite a (and32 (mem w a) x) :: EvRead a (wrap32 (mem w a)) :: log w.
Proof. reflexivity. Qed.

Lemma mem_rmw_or (a x : Z) (w : World) :
  mem (rmw_or a x w) = upd (mem w) a (or32 (mem w a) x).
Proof. reflexivity. Qed.

Lemma mem_rmw_and (a x : Z) (w : World) :
  mem (rmw_and a x w) = upd (mem w) a (and32 (mem w a) x).
Proof. reflexivity. Qed.

Lemma log_stored (a v : Z) (w : World) :
  log (stored a v w) = EvWrite a (wrap32 v) :: log w.
Proof. reflexivity. Qed.

Lemma mem_stored (a v : Z) (w : World) :
  mem (stored a v w) = upd (mem w) a (wrap32 v).
Proof. reflexivity. Qed.

Lemma trace_stored (a v : Z) (w : World) :
  trace (stored a v w) = trace w ++ [EvWrite a (wrap32 v)].
Proof. reflexivity. Qed.

Lemma trace_loaded_dr (w : World) :
  trace (loaded_dr w) = trace w ++ [EvRead SPI1_DR (drv (dr_count w))].
Proof. reflexivity. Qed.

Lemma trace_rmw_or (a x : Z) (w : World) :
  trace (rmw_or a x w) =
  trace w ++ [EvRead a (wrap32 (mem w a)); EvWrite a (or32 (mem w a) x)].
Proof.
  unfold trace. rewrite log_rmw_or. cbn [rev].
  rewrite <- app_assoc. reflexivity.
Qed.

Lemma trace_rmw_and (a x : Z) (w : World) :
  trace (rmw_and a x w) =
  trace w ++ [EvRead a (wrap32 (mem w a)); EvWrite a (and32 (mem w a) x)].
Proof.
  unfold trace. rewrite log_rmw_and. cbn [rev].
  rewrite <- app_assoc. reflexivity.
Qed.

Lemma trace_polled (k : nat) (w : World) :
  trace (polled k w) = trace w ++ sr_events (sr_count w) k.
Proof.
  unfold trace, polled. cbn [log].
  rewrite rev_app_distr, rev_involutive. reflexivity.
Qed.

(** ** Busy-waits *)

Lemma sr_wait_0 (spin : Z -> bool) (w : World) :
  sr_wait spin 0 w = Stalled w.
Proof. reflexivity. Qed.

Lemma sr_wait_step (spin : Z -> bool) (fuel : nat) (w : World) :
  sr_wait spin (S fuel) w =
  if spin (srv (sr_count w)) then sr_wait spin fuel (loaded_sr w)
  else Done tt (loaded_sr w).
Proof.
  unfold sr_wait. cbn [while_]. unfold bind at 1.
  change (bind (load SPI1_SR) (fun v => ret (spin v)) w)
    with (Done (spin (srv (sr_count w))) (loaded_sr w)).
  cbv iota beta.
  destruct (spin (srv (sr_count w))); reflexivity.
Qed.

Lemma sr_events_S (c n : nat) :
  sr_events c (S n) = sr_events c n ++ [EvRead SPI1_SR (srv (c + n))].
Proof. unfold sr_events. rewrite seq_S, map_app. reflexivity. Qed.

Lemma sr_events_length (c n : nat) : length (sr_events c n) = n.
Proof. unfold sr_events. rewrite length_map, length_seq. reflexivity. Qed.

Lemma polled_0 (w : World) : polled 0 w = w.
Proof.
  destruct w as [m c d l]. unfold polled. cbn [sr_count mem dr_count log].
  cbn [sr_events seq map rev app]. f_equal. lia.
Qed.

Lemma polled_1 (w : World) : polled 1 w = loaded_sr w.
Proof.
  unfold polled, loaded_sr. cbn [sr_events seq map rev app]. f_equal. lia.
Qed.

Lemma polled_loaded_sr (n : nat) (w : World) :
  polled n (loaded_sr w) = polled (S n) w.
Proof.
  unfold polled, loaded_sr. cbn [mem sr_count dr_count log]. f_equal.
  - lia.
  - cbn [sr_events seq map rev]. fold (sr_events (S (sr_count w)) n).
    rewrite <- app_assoc. reflexivity.
Qed.

Lemma spinning_shift (spin : Z -> bool) (c n : nat) :
  spin (srv c) = true ->
  (spinning spin (S c) n <-> spinning spin c (S n)).
Proof.
  intros H0. unfold spinning. split; intros H j Hj.
  - destruct j as [|j].
    + rewrite Nat.add_0_r. exact H0.
    + replace (c + S j)%nat with (S c + j)%nat by lia. apply H. lia.
  - replace (S c + j)%nat with (c + S j)%nat by lia. apply H. lia.
Qed.

Lemma observed_shift (spin : Z -> bool) (c n : nat) :
  spin (srv c) = true ->
  (observed spin (S c) n <-> observed spin c (S n)).
Proof.
  intros H0. unfold observed.
  rewrite (spinning_shift spin c n H0).
  replace (c + S n)%nat with (S c + n)%nat by lia. reflexivity.
Qed.

Lemma observed_0 (spin : Z -> bool) (c : nat) :
  spin (srv c) = false -> observed spin c 0.
Proof.
  intros H. split; [intros j Hj; lia|]. rewrite Nat.add_0_r. exact H.
Qed.

Lemma observed_unique (spin : Z -> bool) (c n m : nat) :
  observed spin c n -> observed spin c m -> n = m.
Proof.
  intros [Hn1 Hn2] [Hm1 Hm2].
  destruct (Nat.lt_trichotomy n m) as [H|[H|H]]; [|exact H|].
  - specialize (Hm1 n H). congruence.
  - specialize (Hn1 m H). congruence.
Qed.

Lemma observed_not_spinning (spin : Z -> bool) (c n k : nat) :
  observed spin c n -> spinning spin c k -> (k <= n)%nat.
Proof.
  intros [_ Hn] Hk. destruct (Nat.le_gt_cases k n) as [H|H]; [exact H|].
  specialize (Hk n H). congruence.
Qed.

(** A wait either uses up its budget with every read telling it to spin,
    or leaves at the first read that tells it to stop. *)
Lemma sr_wait_cases (spin : Z -> bool) (fuel : nat) :
  forall w,
    (spinning spin (sr_count w) fuel /\
     sr_wait spin fuel w = Stalled (polled fuel w)) \/
    (exists n, (n < fuel)%nat /\ observed spin (sr_count w) n /\
               sr_wait spin fuel w = Done tt (polled (S n) w)).
Proof.
  induction fuel as [|fuel IH]; intros w.
  - left. split; [intros j Hj; lia|].
    rewrite sr_wait_0, polled_0. reflexivity.
  - rewrite sr_wait_step.
    destruct (spin (srv (sr_count w))) eqn:H0.
    + destruct (IH (loaded_sr w)) as [[Hs E]|(n & Hn & Hobs & E)].
      * left. split.
        -- apply spinning_shift; assumption.
        -- rewrite E, polled_loaded_sr. reflexivity.
      * right. exists (S n). split; [lia|]. split.
        -- apply observed_shift; assumption.
        -- rewrite E, polled_loaded_sr. reflexivity.
    + right. exists 0%nat. split; [lia|]. split.
      * apply observed_0. exact H0.
      * rewrite polled_1. reflexivity.
Qed.

(** The wait leaves exactly at the first status read that ends it. *)
Lemma sr_wait_returns (spin : Z -> bool) (n fuel : nat) (w : World) :
  observed spin (sr_count w) n -> (n < fuel)%nat ->
  sr_wait spin fuel w = Done tt (polled (S n) w).
Proof.
  intros Hobs Hf.
  destruct (sr_wait_cases spin fuel w) as [[Hs _]|(m & _ & Hobs' & E)].
  - pose proof (observed_not_spinning _ _ _ _ Hobs Hs). lia.
  - rewrite (observed_unique _ _ _ _ Hobs Hobs'). exact E.
Qed.

Lemma sr_wait_inv (spin : Z -> bool) (fuel : nat) (w : World)
      (u : unit) (w' : World) :
  sr_wait spin fuel w = Done u w' ->
  exists n, (n < fuel)%nat /\ observed spin (sr_count w) n /\
            w' = polled (S n) w.
Proof.
  intros H.
  destruct (sr_wait_cases spin fuel w) as [[_ E]|(n & Hn & Hobs & E)];
    rewrite E in H; [discriminate|].
  injection H as _ <-. exists n. auto.
Qed.

(** While its reads tell it to spin, the wait is still there when the
    budget is used up. *)
Lemma sr_wait_spins (spin : Z -> bool) (fuel : nat) (w : World) :
  spinning spin (sr_count w) fuel ->
  sr_wait spin fuel w = Stalled (polled fuel w).
Proof.
  intros Hs.
  destruct (sr_wait_cases spin fuel w) as [[_ E]|(n & Hn & [_ Hobs] & _)];
    [exact E|].
  specialize (Hs n Hn). congruence.
Qed.

(** A flag that never reaches the awaited state keeps the wait spinning
    whatever the budget. *)
Lemma sr_wait_stalls (spin : Z -> bool) (fuel : nat) (w : World) :
  (forall k, (sr_count w <= k)%nat -> spin (srv k) = true) ->
  sr_wait spin fuel w = Stalled (polled fuel w).
Proof.
  intros H. apply sr_wait_spins. intros j _. apply H. lia.
Qed.

(** ** The driver functions, wait by wait *)

Lemma transmit_run (fuel : nat) (data : Z) (w : World) :
  spi_transmit fuel data w =
  match sr_wait txe_clear fuel w with
  | Done _ w' => sr_wait bsy_set fuel (stored SPI1_DR (wrap8 data) w')
  | Stalled w' => Stalled w'
  end.
Proof. reflexivity. Qed.

Lemma receive_run (fuel : nat) (w : World) :
  spi_receive fuel w =
  match sr_wait rxne_clear fuel w with
  | Done _ w' => Done (wrap8 (drv (dr_count w'))) (loaded_dr w')
  | Stalled w' => Stalled w'
  end.
Proof.
  unfold spi_receive, bind.
  change (while_ fuel _ w) with (sr_wait rxne_clear fuel w).
  destruct (sr_wait rxne_clear fuel w) as [[] w'|w']; reflexivity.
Qed.

Lemma exchange_run (fuel : nat) (data : Z) (w : World) :
  spi_exchange_data fuel data w =
  match spi_transmit fuel (wrap8 data) (selected w) with
  | Done _ w' =>
      match spi_receive fuel w' with
      | Done _ w'' => Done tt (deselected w'')
      | Stalled w'' => Stalled w''
      end
  | Stalled w' => Stalled w'
  end.
Proof.
  unfold spi_exchange_data, bind at 1 2 3.
  change (and_assign GPIOA_ODR (bnot NSS_PIN) w)
    with (@Done unit tt (selected w)).
  cbv iota beta.
  destruct (spi_transmit fuel (wrap8 data) (selected w)) as [[] w'|w'];
    [|reflexivity].
  destruct (spi_receive fuel w') as [rx w''|w'']; reflexivity.
Qed.

Lemma receive_inv (fuel : nat) (w : World) (rx : Z) (w2 : World) :
  spi_receive fuel w = Done rx w2 ->
  exists n,
    (n < fuel)%nat /\ observed rxne_clear (sr_count w) n /\
    rx = wrap8 (drv (dr_count w)) /\
    w2 = loaded_dr (polled (S n) w).
Proof.
  intros H. rewrite receive_run in H.
  destruct (sr_wait rxne_clear fuel w) as [u w'|w'] eqn:E; [|discriminate].
  apply sr_wait_inv in E. destruct E as (n & Hn & Hobs & ->).
  injection H as <- <-. exists n. auto.
Qed.

Lemma received_trace (n : nat) (w : World) :
  trace (loaded_dr (polled (S n) w)) =
  trace w ++ sr_events (sr_count w) n ++
  [EvRead SPI1_SR (srv (sr_count w + n));
   EvRead SPI1_DR (drv (dr_count w))].
Proof.
  rewrite trace_loaded_dr, trace_polled, sr_events_S.
  rewrite <- !app_assoc. reflexivity.
Qed.

(** ** One exchange, end to end *)

Lemma exchange_progress (fuel : nat) (data : Z) (w : World) :
  Progress fuel data w (spi_exchange_data fuel data w).
Proof.
  rewrite exchange_run, transmit_run.
  destruct (sr_wait_cases txe_clear fuel (selected w))
    as [[S1 E1]|(n1 & F1 & H1 & E1)]; rewrite E1.
  { apply StuckTxe. exact S1. }
  cbv iota beta.
  destruct (sr_wait_cases bsy_set fuel
              (stored SPI1_DR (wrap8 (wrap8 data))
                      (polled (S n1) (selected w))))
    as [[S2 E2]|(n2 & F2 & H2 & E2)]; rewrite E2.
  { apply (StuckBsy fuel data w n1 F1 H1 S2). }
  cbv iota beta. rewrite receive_run.
  destruct (sr_wait_cases rxne_clear fuel
              (polled (S n2)
                 (stored SPI1_DR (wrap8 (wrap8 data))
                         (polled (S n1) (selected w)))))
    as [[S3 E3]|(n3 & F3 & H3 & E3)]; rewrite E3.
  { apply (StuckRxne fuel data w n1 n2 F1 F2 H1 H2 S3). }
  apply (Returned fuel data w n1 n2 n3 F1 F2 F3 H1 H2 H3).
Qed.

Lemma exchange_returns (fuel : nat) (data : Z) (w : World)
      (n1 n2 n3 : nat) :
  observed txe_clear (sr_count w) n1 ->
  observed bsy_set (sr_count w + S n1) n2 ->
  observed rxne_clear (sr_count w + S n1 + S n2) n3 ->
  (n1 < fuel)%nat -> (n2 < fuel)%nat -> (n3 < fuel)%nat ->
  spi_exchange_data fuel data w = Done tt (exchanged data n1 n2 n3 w).
Proof.
  intros H1 H2 H3 F1 F2 F3.
  rewrite exchange_run, transmit_run.
  rewrite (sr_wait_returns txe_clear n1 fuel (selected w) H1 F1).
  cbv iota beta.
  rewrite (sr_wait_returns bsy_set n2 fuel
             (stored SPI1_DR (wrap8 (wrap8 data))
                     (polled (S n1) (selected w))) H2 F2).
  rewrite receive_run.
  rewrite (sr_wait_returns rxne_clear n3 fuel
             (polled (S n2)
                (stored SPI1_DR (wrap8 (wrap8 data))
                        (polled (S n1) (selected w)))) H3 F3).
  reflexivity.
Qed.

Lemma exchange_inv (fuel : nat) (data : Z) (w : World)
      (u : unit) (w' : World) :
  spi_exchange_data fuel data w = Done u w' ->
  exists n1 n2 n3,
    (n1 < fuel)%nat /\ (n2 < fuel)%nat /\ (n3 < fuel)%nat /\
    observed txe_clear (sr_count w) n1 /\
    observed bsy_set (sr_count w + S n1) n2 /\
    observed rxne_clear (sr_count w + S n1 + S n2) n3 /\
    w' = exchanged data n1 n2 n3 w.
Proof.
  intros H. pose proof (exchange_progress fuel data w) as P.
  rewrite H in P. inversion P; subst.
  exists n1, n2, n3. auto 10.
Qed.

(** ** The accesses of each stage *)

Ltac flat := repeat first [rewrite <- app_assoc | progress cbn [app]].

Lemma trace_selected (w : World) :
  trace (selected w) = trace w ++ select_events w.
Proof. apply trace_rmw_and. Qed.

Lemma trace_waiting_txe (k : nat) (w : World) :
  trace (waiting_txe k w) = trace w ++ txe_events k w.
Proof.
  unfold waiting_txe, txe_events.
  rewrite trace_polled, trace_selected, <- app_assoc. reflexivity.
Qed.

Lemma trace_waiting_bsy (data : Z) (n1 k : nat) (w : World) :
  trace (waiting_bsy data n1 k w) = trace w ++ bsy_events data n1 k w.
Proof.
  unfold waiting_bsy, bsy_events.
  rewrite trace_polled, trace_stored, trace_waiting_txe.
  unfold txe_events. rewrite sr_events_S, wrap8_idem, wrap32_wrap8.
  flat. reflexivity.
Qed.

Lemma trace_waiting_rxne (data : Z) (n1 n2 k : nat) (w : World) :
  trace (waiting_rxne data n1 n2 k w) =
  trace w ++ rxne_events data n1 n2 k w.
Proof.
  unfold waiting_rxne, rxne_events.
  rewrite trace_polled, trace_waiting_bsy.
  unfold bsy_events. flat. reflexivity.
Qed.

Lemma ODR_not_DR : GPIOA_ODR <> SPI1_DR.
Proof. addr_neq. Qed.

Lemma mem_waiting_rxne_ODR (data : Z) (n1 n2 k : nat) (w : World) :
  mem (waiting_rxne data n1 n2 k w) GPIOA_ODR = cs_low (mem w GPIOA_ODR).
Proof.
  unfold waiting_rxne, waiting_bsy, waiting_txe, selected, polled.
  cbn [mem]. rewrite mem_stored, mem_rmw_and.
  rewrite (upd_other _ SPI1_DR) by exact ODR_not_DR.
  apply upd_same.
Qed.

Lemma exchanged_mem_ODR (data : Z) (n1 n2 n3 : nat) (w : World) :
  mem (exchanged data n1 n2 n3 w) GPIOA_ODR =
  cs_high (cs_low (mem w GPIOA_ODR)).
Proof.
  unfold exchanged, deselected. rewrite mem_rmw_or, upd_same.
  change (mem (loaded_dr ?x)) with (mem x).
  rewrite mem_waiting_rxne_ODR. reflexivity.
Qed.

Lemma exchanged_trace (data : Z) (n1 n2 n3 : nat) (w : World) :
  trace (exchanged data n1 n2 n3 w) =
  trace w ++ exchange_events data n1 n2 n3 w.
Proof.
  unfold exchanged, deselected, exchange_events, deselect_events.
  rewrite trace_rmw_or, trace_loaded_dr.
  change (mem (loaded_dr ?x)) with (mem x).
  rewrite mem_waiting_rxne_ODR, trace_waiting_rxne.
  unfold cs_low at 1. rewrite and32_wrapped. fold (cs_low (mem w GPIOA_ODR)).
  unfold rxne_events. rewrite (sr_events_S _ n3).
  flat. reflexivity.
Qed.

(** ** Facts about traces *)

Lemma writes_to_app (a : Z) (t1 t2 : list Event) :
  writes_to a (t1 ++ t2) = writes_to a t1 ++ writes_to a t2.
Proof. unfold writes_to. rewrite filter_app, map_app. reflexivity. Qed.

Lemma reads_of_app (a : Z) (t1 t2 : list Event) :
  reads_of a (t1 ++ t2) = reads_of a t1 ++ reads_of a t2.
Proof. unfold reads_of. rewrite filter_app, map_app. reflexivity. Qed.

Lemma sr_events_no_write (a : Z) (c n : nat) :
  Forall (fun e => is_write_to a e = false) (sr_events c n).
Proof.
  apply Forall_forall. intros e He. unfold sr_events in He.
  apply in_map_iff in He. destruct He as (k & <- & _). reflexivity.
Qed.

Lemma sr_events_no_DR_read (c n : nat) :
  Forall (fun e => is_read_of SPI1_DR e = false) (sr_events c n).
Proof.
  apply Forall_forall. intros e He. unfold sr_events in He.
  apply in_map_iff in He. destruct He as (k & <- & _). reflexivity.
Qed.

Lemma no_write_writes_to (a : Z) (t : list Event) :
  Forall (fun e => is_write_to a e = false) t -> writes_to a t = [].
Proof.
  intros H. unfold writes_to.
  induction H as [|e t He _ IH]; [reflexivity|].
  cbn [filter]. rewrite He. exact IH.
Qed.

(** While a wait spins, every status read it makes shows the spin
    condition. *)
Lemma spinning_idle (spin : Z -> bool) (c n : nat) :
  spinning spin c n ->
  Forall (fun e => exists u, e = EvRead SPI1_SR u /\ spin u = true)
         (sr_events c n).
Proof.
  intros Hs. apply Forall_forall. intros e He.
  unfold sr_events in He. apply in_map_iff in He.
  destruct He as (k & <- & Hk). apply in_seq in Hk.
  exists (srv k). split; [reflexivity|].
  replace k with (c + (k - c))%nat by lia. apply Hs. lia.
Qed.

(** In a list with a single element satisfying [p], that element can be
    split off in one way only; in a list with none, in no way. *)
Lemma split_unique {A : Type} (p : A -> bool) (X : list A) :
  forall (d : A) (Y pre : list A) (e : A) (post : list A),
    Forall (fun x => p x = false) X ->
    Forall (fun x => p x = false) Y ->
    p e = true ->
    X ++ d :: Y = pre ++ e :: post ->
    pre = X /\ e = d /\ post = Y.
Proof.
  induction X as [|x X IH]; intros d Y pre e post HX HY He Heq.
  - destruct pre as [|a pre]; cbn [app] in Heq.
    + injection Heq as -> ->. auto.
    + injection Heq as -> ->. exfalso.
      rewrite Forall_forall in HY.
      specialize (HY e (in_elt e pre post)). congruence.
  - inversion HX as [|? ? Hx HX']; subst.
    destruct pre as [|a pre]; cbn [app] in Heq.
    + injection Heq as -> _. congruence.
    + injection Heq as -> Heq.
      destruct (IH d Y pre e post HX' HY He Heq) as (-> & -> & ->).
      auto.
Qed.

Lemma split_none {A : Type} (p : A -> bool) (X pre : list A)
      (e : A) (post : list A) :
  Forall (fun x => p x = false) X ->
  p e = true ->
  X = pre ++ e :: post -> False.
Proof.
  intros HX He ->. rewrite Forall_forall in HX.
  specialize (HX e (in_elt e pre post)). congruence.
Qed.

(** Which stage events are writes to, or reads of, the data register. *)
Ltac quiet :=
  repeat (apply Forall_app; split);
  try apply sr_events_no_write;
  try apply sr_events_no_DR_read;
  repeat (apply Forall_cons; [reflexivity|]);
  try apply Forall_nil.

Lemma txe_events_no_DR_write (k : nat) (w : World) :
  Forall (fun e => is_write_to SPI1_DR e = false) (txe_events k w).
Proof. unfold txe_events, select_events. quiet. Qed.

Lemma txe_events_no_DR_read (k : nat) (w : World) :
  Forall (fun e => is_read_of SPI1_DR e = false) (txe_events k w).
Proof. unfold txe_events, select_events. quiet. Qed.

Lemma bsy_events_no_DR_read (data : Z) (n1 k : nat) (w : World) :
  Forall (fun e => is_read_of SPI1_DR e = false) (bsy_events data n1 k w).
Proof.
  unfold bsy_events.
  apply Forall_app; split.
  - apply Forall_app; split; [apply txe_events_no_DR_read|quiet].
  - apply Forall_cons; [reflexivity|]. quiet.
Qed.

Lemma rxne_events_no_DR_read (data : Z) (n1 n2 k : nat) (w : World) :
  Forall (fun e => is_read_of SPI1_DR e = false)
         (rxne_events data n1 n2 k w).
Proof.
  unfold rxne_events.
  apply Forall_app; split.
  - apply Forall_app; split; [apply txe_events_no_DR_read|quiet].
  - apply Forall_cons; [reflexivity|]. quiet.
Qed.

(** ** Initialisation, end to end *)

Lemma init_run (w : World) : spi_init w = Done tt (initialized w).
Proof.
  unfold spi_init, initialized, cr1_configured, pins_configured,
    clocks_enabled.
  repeat (erewrite bind_run;
          [|first [ apply or_assign_run; addr_neq
                  | apply and_assign_run; addr_neq
                  | apply store_run ]]).
  apply or_assign_run; addr_neq.
Qed.

Lemma cr1_value_0 : wrap32 0 = 0.
Proof. reflexivity. Qed.

Lemma cr1_value_1 : or32 0 (shl 1 2) = 0x04.
Proof. vm_compute. reflexivity. Qed.

Lemma cr1_value_2 : or32 0x04 (shl 3 3) = 0x1C.
Proof. vm_compute. reflexivity. Qed.

Lemma cr1_value_3 : or32 0x1C (shl 0 1) = 0x1C.
Proof. vm_compute. reflexivity. Qed.

Lemma cr1_value_4 : or32 0x1C (shl 0 0) = 0x1C.
Proof. vm_compute. reflexivity. Qed.

Lemma cr1_value_5 : or32 0x1C (shl 1 6) = 0x5C.
Proof. vm_compute. reflexivity. Qed.

Ltac cr1_values :=
  rewrite ?cr1_value_0, ?cr1_value_1, ?cr1_value_2, ?cr1_value_3,
    ?cr1_value_4, ?cr1_value_5.

Ltac unfold_init :=
  unfold initialized, cr1_configured, pins_configured, clocks_enabled;
  repeat first [ rewrite log_rmw_or | rewrite log_rmw_and
               | rewrite log_stored | rewrite mem_rmw_or
               | rewrite mem_rmw_and | rewrite mem_stored ].

Lemma initialized_log (w : World) :
  log (initialized w) = rev (init_events (mem w)) ++ log w.
Proof.
  unfold_init. regs. rewrite ?and32_wrapped, ?or32_wrapped.
  cr1_values. reflexivity.
Qed.

Lemma initialized_trace (w : World) :
  trace (initialized w) = trace w ++ init_events (mem w).
Proof.
  unfold trace. rewrite initialized_log, rev_app_distr, rev_involutive.
  reflexivity.
Qed.

Lemma initialized_mem_AHB1ENR (w : World) :
  mem (initialized w) RCC_AHB1ENR = or32 (mem w RCC_AHB1ENR) (shl 1 0).
Proof. unfold_init. regs. reflexivity. Qed.

Lemma initialized_mem_APB2ENR (w : World) :
  mem (initialized w) RCC_APB2ENR = or32 (mem w RCC_APB2ENR) (shl 1 12).
Proof. unfold_init. regs. reflexivity. Qed.

Lemma initialized_mem_MODER (w : World) :
  mem (initialized w) GPIOA_MODER =
  or32 (and32 (mem w GPIOA_MODER) moder_clear) moder_set.
Proof. unfold_init. regs. reflexivity. Qed.

Lemma initialized_mem_AFRL (w : World) :
  mem (initialized w) GPIOA_AFRL =
  or32 (and32 (mem w GPIOA_AFRL) afrl_clear) afrl_set.
Proof. unfold_init. regs. reflexivity. Qed.

Lemma initialized_mem_CR1 (w : World) :
  mem (initialized w) SPI1_CR1 = 0x5C.
Proof. unfold_init. regs. cr1_values. reflexivity. Qed.

(** ** The data-register accesses of an exchange and what precedes them *)

(** Everything after the data-register write of a returning exchange. *)
Lemma exchange_events_at_write (data : Z) (n1 n2 n3 : nat) (w : World) :
  exchange_events data n1 n2 n3 w =
  (txe_events n1 w ++ [EvRead SPI1_SR (srv (sr_count w + n1))]) ++
  EvWrite SPI1_DR (wrap8 data) ::
  (sr_events (sr_count w + S n1) (S n2) ++
   sr_events (sr_count w + S n1 + S n2) n3 ++
   [EvRead SPI1_SR (srv (sr_count w + S n1 + S n2 + n3));
    EvRead SPI1_DR (drv (dr_count w))] ++
   deselect_events w).
Proof. unfold exchange_events, rxne_events. flat. reflexivity. Qed.

Lemma observed_txe_set (c n : nat) :
  observed txe_clear c n -> Z.testbit (srv (c + n)) 1 = true.
Proof.
  intros [_ H]. rewrite txe_clear_bit in H.
  destruct (Z.testbit (srv (c + n)) 1); [reflexivity|discriminate].
Qed.

Lemma observed_rxne_set (c n : nat) :
  observed rxne_clear c n -> Z.testbit (srv (c + n)) 0 = true.
Proof.
  intros [_ H]. rewrite rxne_clear_bit in H.
  destruct (Z.testbit (srv (c + n)) 0); [reflexivity|discriminate].
Qed.

(** A trace that runs through the TXE wait and the write: the write is
    the only one to the data register, and the status read that showed
    TXE set is the access just before it. *)
Lemma dr_write_guarded (data : Z) (n1 : nat) (w : World)
      (Y pre : list Event) (e : Event) (post : list Event) :
  observed txe_clear (sr_count w) n1 ->
  Forall (fun x => is_write_to SPI1_DR x = false) Y ->
  (txe_events n1 w ++ [EvRead SPI1_SR (srv (sr_count w + n1))]) ++
  EvWrite SPI1_DR (wrap8 data) :: Y = pre ++ e :: post ->
  is_write_to SPI1_DR e = true ->
  exists pre' v, pre = pre' ++ [EvRead SPI1_SR v] /\ Z.testbit v 1 = true.
Proof.
  intros Hobs HY Heq He.
  apply (split_unique (is_write_to SPI1_DR)) in Heq;
    [ | | exact HY | exact He ].
  - destruct Heq as (-> & _ & _).
    exists (txe_events n1 w), (srv (sr_count w + n1)).
    split; [reflexivity|]. apply observed_txe_set. exact Hobs.
  - apply Forall_app; split; [apply txe_events_no_DR_write|].
    apply Forall_cons; [reflexivity|apply Forall_nil].
Qed.

Lemma idle_then_write (data : Z) (N : nat) (w : World) (Y : list Event) :
  observed txe_clear (sr_count w) N ->
  Forall (fun x => is_write_to SPI1_DR x = false) Y ->
  exists o lo idle v rest,
    trace w ++
    (txe_events N w ++ [EvRead SPI1_SR (srv (sr_count w + N))]) ++
    EvWrite SPI1_DR (wrap8 data) :: Y =
    trace w ++ [EvRead GPIOA_ODR o; EvWrite GPIOA_ODR lo] ++
               idle ++
               [EvRead SPI1_SR v; EvWrite SPI1_DR (wrap8 data)] ++
               rest /\
    length idle = N /\
    Forall (fun e => exists u, e = EvRead SPI1_SR u /\
                               Z.testbit u 1 = false) idle /\
    Z.testbit v 1 = true /\
    writes_to SPI1_DR rest = [].
Proof.
  intros Hobs HY.
  exists (wrap32 (mem w GPIOA_ODR)), (cs_low (mem w GPIOA_ODR)).
  exists (sr_events (sr_count w) N), (srv (sr_count w + N)), Y.
  split.
  { unfold txe_events, select_events. flat. reflexivity. }
  split; [apply sr_events_length|].
  split.
  { destruct Hobs as [Hs _]. apply spinning_idle in Hs.
    eapply Forall_impl; [|exact Hs]. cbv beta.
    intros e (u & -> & Hu). exists u. split; [reflexivity|].
    rewrite txe_clear_bit in Hu.
    destruct (Z.testbit u 1); [discriminate|reflexivity]. }
  split; [apply observed_txe_set; exact Hobs|].
  apply no_write_writes_to. exact HY.
Qed.

Lemma after_write_no_DR_write (n2 n3 : nat) (c2 c3 : nat) (v d : Z)
      (w : World) :
  Forall (fun x => is_write_to SPI1_DR x = false)
         (sr_events c2 n2 ++ sr_events c3 n3 ++
          [EvRead SPI1_SR v; EvRead SPI1_DR d] ++ deselect_events w).
Proof. unfold deselect_events. quiet. Qed.

(** Where the data-register write sits, counted from the chip select: the
    accesses before it are the two that pull the chip select low and,
    after them, status reads only. *)
Lemma dr_write_selected (data : Z) (n1 : nat) (w : World)
      (Y pre : list Event) (e : Event) (post : list Event) :
  Forall (fun x => is_write_to SPI1_DR x = false) Y ->
  (txe_events n1 w ++ [EvRead SPI1_SR (srv (sr_count w + n1))]) ++
  EvWrite SPI1_DR (wrap8 data) :: Y = pre ++ e :: post ->
  is_write_to SPI1_DR e = true ->
  exists polls,
    pre = select_events w ++ polls /\
    Forall (fun x => is_write_to GPIOA_ODR x = false) polls.
Proof.
  intros HY Heq He.
  apply (split_unique (is_write_to SPI1_DR)) in Heq;
    [ | | exact HY | exact He ].
  - destruct Heq as (-> & _ & _).
    exists (sr_events (sr_count w) n1 ++
            [EvRead SPI1_SR (srv (sr_count w + n1))]).
    split; [unfold txe_events; rewrite <- app_assoc; reflexivity|].
    quiet.
  - apply Forall_app; split; [apply txe_events_no_DR_write|].
    apply Forall_cons; [reflexivity|apply Forall_nil].
Qed.

(** ** The claims about [spi_exchange_data] *)

(** C1, as the code has it.  [spi_receive] returns the low 8 bits of the
    word it reads from the data register, and that read comes directly
    after the status read that showed RXNE (bit 0) set.  A returning
    [spi_exchange_data] is: chip select low, [spi_transmit],
    [spi_receive], chip select high; it hands the received byte to
    nothing, and its own result is the unit value of a [void] function. *)
Theorem C1_receive_returns_exchange_is_void :
  (forall fuel w rx w2,
      spi_receive fuel w = Done rx w2 ->
      exists pre v d,
        trace w2 = trace w ++ pre ++
                   [EvRead SPI1_SR v; EvRead SPI1_DR d] /\
        Z.testbit v 0 = true /\
        d = drv (dr_count w) /\
        rx = wrap8 d) /\
  (forall fuel data w r w',
      spi_exchange_data fuel data w = Done r w' ->
      r = tt /\
      exists w1 rx w2,
        spi_transmit fuel (wrap8 data) (selected w) = Done tt w1 /\
        spi_receive fuel w1 = Done rx w2 /\
        w' = deselected w2).
Proof.
  split.
  - intros fuel w rx w2 H. apply receive_inv in H.
    destruct H as (n & _ & Hobs & -> & ->).
    exists (sr_events (sr_count w) n), (srv (sr_count w + n)),
      (drv (dr_count w)).
    split; [apply received_trace|].
    split; [apply observed_rxne_set; exact Hobs|auto].
  - intros fuel data w r w' H. rewrite exchange_run in H.
    destruct (spi_transmit fuel (wrap8 data) (selected w))
      as [[] w1|w1]; [|discriminate].
    destruct (spi_receive fuel w1) as [rx w2|w2] eqn:E; [|discriminate].
    injection H as <- <-. split; [reflexivity|].
    exists w1, rx, w2. auto.
Qed.

(** C5 (select bracket).  In every call of [spi_exchange_data], whether
    it returns or is still waiting when its budget is used up, the first
    two accesses are the read of the output-data register and the write
    that clears its bit 4; a write to the data register has these two
    before it and, between them and itself, no write to the output-data
    register.  If the call returns, the rest of its accesses are [mid]
    and then the write that sets bit 4: [mid] holds no write to the
    output-data register, holds the call's one data-register write and
    holds all status reads of the call.  If the call is still waiting,
    no further write to the output-data register has been made. *)
Theorem C5_select_bracket (fuel : nat) (data : Z) (w : World) :
  exists o lo rest,
    trace (world_of (spi_exchange_data fuel data w)) =
      trace w ++ [EvRead GPIOA_ODR o; EvWrite GPIOA_ODR lo] ++ rest /\
    Z.testbit lo 4 = false /\
    (forall pre e post,
        trace (world_of (spi_exchange_data fuel data w)) =
          trace w ++ pre ++ e :: post ->
        is_write_to SPI1_DR e = true ->
        exists polls,
          pre = [EvRead GPIOA_ODR o; EvWrite GPIOA_ODR lo] ++ polls /\
          Forall (fun x => is_write_to GPIOA_ODR x = false) polls) /\
    match spi_exchange_data fuel data w with
    | Done _ w' =>
        exists mid hi,
          rest = mid ++ [EvWrite GPIOA_ODR hi] /\
          Z.testbit hi 4 = true /\
          Forall (fun e => is_write_to GPIOA_ODR e = false) mid /\
          writes_to SPI1_DR mid = [wrap8 data] /\
          reads_of SPI1_SR (trace w') = reads_of SPI1_SR (trace w ++ mid)
    | Stalled _ =>
        Forall (fun e => is_write_to GPIOA_ODR e = false) rest
    end.
Proof.
  assert (Hlo : Z.testbit (cs_low (mem w GPIOA_ODR)) 4 = false).
  { rewrite cs_low_bits by lia. apply andb_false_r. }
  exists (wrap32 (mem w GPIOA_ODR)), (cs_low (mem w GPIOA_ODR)).
  destruct (exchange_progress fuel data w)
    as [S1 | n1 F1 H1 S2 | n1 n2 F1 F2 H1 H2 S3
        | n1 n2 n3 F1 F2 F3 H1 H2 H3]; cbn [world_of].
  - (* still waiting for TXE *)
    exists (sr_events (sr_count w) fuel).
    split; [apply trace_waiting_txe|]. split; [exact Hlo|].
    split; [|apply sr_events_no_write].
    intros pre e post Heq He. exfalso.
    rewrite trace_waiting_txe in Heq. apply app_inv_head in Heq.
    exact (split_none _ _ _ _ _ (txe_events_no_DR_write _ _) He Heq).
  - (* still waiting for BSY to clear *)
    exists (sr_events (sr_count w) n1 ++
            [EvRead SPI1_SR (srv (sr_count w + n1))] ++
            [EvWrite SPI1_DR (wrap8 data)] ++
            sr_events (sr_count w + S n1) fuel).
    split.
    { rewrite trace_waiting_bsy.
      unfold bsy_events, txe_events, select_events. flat. reflexivity. }
    split; [exact Hlo|].
    split; [|quiet].
    intros pre e post Heq He.
    rewrite trace_waiting_bsy in Heq. apply app_inv_head in Heq.
    unfold bsy_events in Heq.
    exact (dr_write_selected _ _ _ _ _ _ _
             (sr_events_no_write _ _ _) Heq He).
  - (* still waiting for RXNE *)
    exists (sr_events (sr_count w) n1 ++
            [EvRead SPI1_SR (srv (sr_count w + n1))] ++
            [EvWrite SPI1_DR (wrap8 data)] ++
            sr_events (sr_count w + S n1) (S n2) ++
            sr_events (sr_count w + S n1 + S n2) fuel).
    split.
    { rewrite trace_waiting_rxne.
      unfold rxne_events, txe_events, select_events. flat. reflexivity. }
    split; [exact Hlo|].
    split; [|quiet].
    intros pre e post Heq He.
    rewrite trace_waiting_rxne in Heq. apply app_inv_head in Heq.
    unfold rxne_events in Heq.
    refine (dr_write_selected _ _ _ _ _ _ _ _ Heq He). quiet.
  - (* returned *)
    exists ((sr_events (sr_count w) (S n1) ++
             [EvWrite SPI1_DR (wrap8 data)] ++
             sr_events (sr_count w + S n1) (S n2) ++
             sr_events (sr_count w + S n1 + S n2) (S n3) ++
             [EvRead SPI1_DR (drv (dr_count w));
              EvRead GPIOA_ODR (cs_low (mem w GPIOA_ODR))]) ++
            [EvWrite GPIOA_ODR (cs_high (cs_low (mem w GPIOA_ODR)))]).
    assert (Htr : trace (exchanged data n1 n2 n3 w) =
                  trace w ++
                  [EvRead GPIOA_ODR (wrap32 (mem w GPIOA_ODR));
                   EvWrite GPIOA_ODR (cs_low (mem w GPIOA_ODR))] ++
                  (sr_events (sr_count w) (S n1) ++
                   [EvWrite SPI1_DR (wrap8 data)] ++
                   sr_events (sr_count w + S n1) (S n2) ++
                   sr_events (sr_count w + S n1 + S n2) (S n3) ++
                   [EvRead SPI1_DR (drv (dr_count w));
                    EvRead GPIOA_ODR (cs_low (mem w GPIOA_ODR))]) ++
                  [EvWrite GPIOA_ODR (cs_high (cs_low (mem w GPIOA_ODR)))]).
    { rewrite exchanged_trace.
      unfold exchange_events, rxne_events, txe_events, select_events,
        deselect_events.
      rewrite !sr_events_S. flat. reflexivity. }
    split; [exact Htr|]. split; [exact Hlo|].
    split.
    { intros pre e post Heq He.
      rewrite exchanged_trace in Heq. apply app_inv_head in Heq.
      rewrite exchange_events_at_write in Heq.
      refine (dr_write_selected _ _ _ _ _ _ _ _ Heq He).
      apply after_write_no_DR_write. }
    eexists _, _. split; [reflexivity|].
    split. { rewrite cs_high_bits by lia. apply orb_true_r. }
    split; [quiet|].
    split.
    { rewrite !writes_to_app.
      rewrite !(no_write_writes_to _ _ (sr_events_no_write _ _ _)).
      reflexivity. }
    rewrite Htr, !reads_of_app. cbn [app].
    change (reads_of SPI1_SR [EvRead GPIOA_ODR ?a; EvWrite GPIOA_ODR ?b])
      with (@nil Z).
    change (reads_of SPI1_SR [EvWrite GPIOA_ODR ?a]) with (@nil Z).
    rewrite app_nil_r. reflexivity.
Qed.

(** C6 (poll, then act).  In every call of [spi_exchange_data], whether
    it returns or is still waiting when its budget is used up: the access
    just before a data-register write is a status read whose bit 1 (TXE)
    is set; the access just before a data-register read is a status read
    whose bit 0 (RXNE) is set; and if the status script shows TXE clear
    at the next [N] status reads and set at the one after (and the budget
    lets the wait get that far), the call makes exactly [N] status reads
    with TXE clear, then the read with TXE set, then its only
    data-register write. *)
Theorem C6_poll_then_act (fuel : nat) (data : Z) (w : World) :
  (forall pre e post,
      trace (world_of (spi_exchange_data fuel data w)) =
        trace w ++ pre ++ e :: post ->
      (is_write_to SPI1_DR e = true ->
       exists pre' v,
         pre = pre' ++ [EvRead SPI1_SR v] /\ Z.testbit v 1 = true) /\
      (is_read_of SPI1_DR e = true ->
       exists pre' v,
         pre = pre' ++ [EvRead SPI1_SR v] /\ Z.testbit v 0 = true)) /\
  (forall N : nat,
      (N < fuel)%nat ->
      (forall j, (j < N)%nat ->
                 Z.testbit (srv (sr_count w + j)) 1 = false) ->
      Z.testbit (srv (sr_count w + N)) 1 = true ->
      exists o lo idle v rest,
        trace (world_of (spi_exchange_data fuel data w)) =
          trace w ++ [EvRead GPIOA_ODR o; EvWrite GPIOA_ODR lo] ++
                     idle ++
                     [EvRead SPI1_SR v; EvWrite SPI1_DR (wrap8 data)] ++
                     rest /\
        length idle = N /\
        Forall (fun e => exists u, e = EvRead SPI1_SR u /\
                                   Z.testbit u 1 = false) idle /\
        Z.testbit v 1 = true /\
        writes_to SPI1_DR rest = []).
Proof.
  assert (Hobs : forall N,
             (forall j, (j < N)%nat ->
                        Z.testbit (srv (sr_count w + j)) 1 = false) ->
             Z.testbit (srv (sr_count w + N)) 1 = true ->
             observed txe_clear (sr_count w) N).
  { intros N Hidle Hset. split.
    - intros j Hj. rewrite txe_clear_bit, (Hidle j Hj). reflexivity.
    - rewrite txe_clear_bit, Hset. reflexivity. }
  destruct (exchange_progress fuel data w)
    as [S1 | n1 F1 H1 S2 | n1 n2 F1 F2 H1 H2 S3
        | n1 n2 n3 F1 F2 F3 H1 H2 H3]; cbn [world_of].
  - (* still waiting for TXE *)
    rewrite trace_waiting_txe. split.
    + intros pre e post Heq. apply app_inv_head in Heq.
      split; intros He; exfalso.
      * exact (split_none _ _ _ _ _ (txe_events_no_DR_write _ _) He Heq).
      * exact (split_none _ _ _ _ _ (txe_events_no_DR_read _ _) He Heq).
    + intros N HN Hidle Hset. exfalso.
      specialize (S1 N HN). rewrite txe_clear_bit, Hset in S1.
      discriminate S1.
  - (* still waiting for BSY to clear *)
    rewrite trace_waiting_bsy. split.
    + intros pre e post Heq. apply app_inv_head in Heq.
      split; intros He.
      * unfold bsy_events in Heq.
        exact (dr_write_guarded _ _ _ _ _ _ _ H1
                 (sr_events_no_write _ _ _) Heq He).
      * exfalso.
        exact (split_none _ _ _ _ _
                 (bsy_events_no_DR_read _ _ _ _) He Heq).
    + intros N HN Hidle Hset.
      pose proof (observed_unique _ _ _ _ H1 (Hobs N Hidle Hset)).
      subst n1.
      unfold bsy_events.
      apply idle_then_write; [exact H1|apply sr_events_no_write].
  - (* still waiting for RXNE *)
    rewrite trace_waiting_rxne. split.
    + intros pre e post Heq. apply app_inv_head in Heq.
      split; intros He.
      * unfold rxne_events in Heq.
        refine (dr_write_guarded _ _ _ _ _ _ _ H1 _ Heq He). quiet.
      * exfalso.
        exact (split_none _ _ _ _ _
                 (rxne_events_no_DR_read _ _ _ _ _) He Heq).
    + intros N HN Hidle Hset.
      pose proof (observed_unique _ _ _ _ H1 (Hobs N Hidle Hset)).
      subst n1.
      unfold rxne_events.
      apply idle_then_write; [exact H1|quiet].
  - (* returned *)
    rewrite exchanged_trace. split.
    + intros pre e post Heq. apply app_inv_head in Heq.
      split; intros He.
      * rewrite exchange_events_at_write in Heq.
        refine (dr_write_guarded _ _ _ _ _ _ _ H1 _ Heq He).
        apply after_write_no_DR_write.
      * unfold exchange_events in Heq.
        apply (split_unique (is_read_of SPI1_DR)) in Heq;
          [ | | | exact He ].
        -- destruct Heq as (-> & _ & _).
           eexists _, _. split; [reflexivity|].
           apply observed_rxne_set. exact H3.
        -- apply Forall_app; split;
             [apply rxne_events_no_DR_read|quiet].
        -- unfold deselect_events. quiet.
    + intros N HN Hidle Hset.
      pose proof (observed_unique _ _ _ _ H1 (Hobs N Hidle Hset)).
      subst n1.
      rewrite exchange_events_at_write.
      apply idle_then_write;
        [exact H1|apply after_write_no_DR_write].
Qed.

(** C7 (termination).  A call of [spi_exchange_data] returns on some
    iteration budget exactly when each of its three waits gets to see
    its condition: TXE set after [n1] spins, then BSY clear after [n2]
    spins counted from the next status read, then RXNE set after [n3]
    spins counted from the one after.  If from the start of a wait on the
    status script never shows the awaited state (TXE never set; or BSY
    never clear once TXE was seen; or RXNE never set once TXE and
    BSY-clear were seen), the call is still waiting on every budget.  A
    call that returns on a budget returns the same on every larger one:
    the budget is no timeout of the driver's. *)
Theorem C7_returns_iff_flags_observed (data : Z) (w : World) :
  ((exists fuel w', spi_exchange_data fuel data w = Done tt w') <->
   (exists n1 n2 n3,
       observed txe_clear (sr_count w) n1 /\
       observed bsy_set (sr_count w + S n1) n2 /\
       observed rxne_clear (sr_count w + S n1 + S n2) n3)) /\
  ((forall k, (sr_count w <= k)%nat -> Z.testbit (srv k) 1 = false) ->
   forall fuel, spi_exchange_data fuel data w
                = Stalled (waiting_txe fuel w)) /\
  (forall n1,
      observed txe_clear (sr_count w) n1 ->
      (forall k, (sr_count w + S n1 <= k)%nat ->
                 Z.testbit (srv k) 7 = true) ->
      forall fuel, exists w', spi_exchange_data fuel data w = Stalled w') /\
  (forall n1 n2,
      observed txe_clear (sr_count w) n1 ->
      observed bsy_set (sr_count w + S n1) n2 ->
      (forall k, (sr_count w + S n1 + S n2 <= k)%nat ->
                 Z.testbit (srv k) 0 = false) ->
      forall fuel, exists w', spi_exchange_data fuel data w = Stalled w') /\
  (forall fuel fuel' w',
      spi_exchange_data fuel data w = Done tt w' ->
      (fuel <= fuel')%nat ->
      spi_exchange_data fuel' data w = Done tt w').
Proof.
  split; [|split; [|split; [|split]]].
  - split.
    + intros (fuel & w' & H). apply exchange_inv in H.
      destruct H as (n1 & n2 & n3 & _ & _ & _ & H1 & H2 & H3 & _).
      exists n1, n2, n3. auto.
    + intros (n1 & n2 & n3 & H1 & H2 & H3).
      exists (S (n1 + n2 + n3)), (exchanged data n1 n2 n3 w).
      apply exchange_returns; assumption || lia.
  - intros Hnever fuel. rewrite exchange_run, transmit_run.
    rewrite sr_wait_stalls; [reflexivity|].
    intros k Hk. rewrite txe_clear_bit, Hnever by exact Hk. reflexivity.
  - intros n1 H1 Hnever fuel.
    destruct (exchange_progress fuel data w)
      as [S1 | m1 F1 G1 S2 | m1 m2 F1 F2 G1 G2 S3
          | m1 m2 m3 F1 F2 F3 G1 G2 G3]; eauto; exfalso;
      pose proof (observed_unique _ _ _ _ G1 H1); subst m1;
      destruct G2 as [_ G2]; rewrite bsy_set_bit, Hnever in G2 by lia;
      discriminate G2.
  - intros n1 n2 H1 H2 Hnever fuel.
    destruct (exchange_progress fuel data w)
      as [S1 | m1 F1 G1 S2 | m1 m2 F1 F2 G1 G2 S3
          | m1 m2 m3 F1 F2 F3 G1 G2 G3]; eauto; exfalso.
    pose proof (observed_unique _ _ _ _ G1 H1). subst m1.
    pose proof (observed_unique _ _ _ _ G2 H2). subst m2.
    destruct G3 as [_ G3]. rewrite rxne_clear_bit, Hnever in G3 by lia.
    discriminate G3.
  - intros fuel fuel' w' H Hle. apply exchange_inv in H.
    destruct H as (n1 & n2 & n3 & F1 & F2 & F3 & H1 & H2 & H3 & ->).
    apply exchange_returns; assumption || lia.
Qed.

(** C10 (output-data frame).  Whatever the output-data register holds
    before the call, a returning call of [spi_exchange_data] leaves each
    of its bits 0..31 other than bit 4 as it was. *)
Theorem C10_odr_other_bits_kept (fuel : nat) (data : Z) (w w' : World) :
  spi_exchange_data fuel data w = Done tt w' ->
  forall i, 0 <= i < 32 -> i <> 4 ->
    Z.testbit (mem w' GPIOA_ODR) i = Z.testbit (mem w GPIOA_ODR) i.
Proof.
  intros H i Hi Hne. apply exchange_inv in H.
  destruct H as (n1 & n2 & n3 & _ & _ & _ & _ & _ & _ & ->).
  rewrite exchanged_mem_ODR, cs_high_bits, cs_low_bits by exact Hi.
  destruct (Z.eqb_spec i 4) as [|_]; [contradiction|].
  cbn [negb]. rewrite andb_true_r, orb_false_r. reflexivity.
Qed.

(** ** The claims about [spi_init] *)

(** C2, as the code has it.  [spi_init] writes the GPIO mode register
    twice and the alternate-function register twice.  The first write to
    each carries the word read with the fields of PA4..PA7 cleared (bits
    8..15, resp. 16..31, all zero); the second carries that word with the
    fields set (mode 2 in each mode field, selector 5 in each selector
    field), and it is the value the register is left holding. *)
Theorem C2_pin_fields_cleared_then_set (w : World) :
  exists w' evs,
    spi_init w = Done tt w' /\
    trace w' = trace w ++ evs /\
    writes_to GPIOA_MODER evs =
      [and32 (mem w GPIOA_MODER) moder_clear;
       or32 (and32 (mem w GPIOA_MODER) moder_clear) moder_set] /\
    writes_to GPIOA_AFRL evs =
      [and32 (mem w GPIOA_AFRL) afrl_clear;
       or32 (and32 (mem w GPIOA_AFRL) afrl_clear) afrl_set] /\
    mem w' GPIOA_MODER =
      or32 (and32 (mem w GPIOA_MODER) moder_clear) moder_set /\
    mem w' GPIOA_AFRL =
      or32 (and32 (mem w GPIOA_AFRL) afrl_clear) afrl_set /\
    (forall i, 8 <= i < 16 ->
       Z.testbit (and32 (mem w GPIOA_MODER) moder_clear) i = false /\
       Z.testbit (or32 (and32 (mem w GPIOA_MODER) moder_clear)
                       moder_set) i = Z.testbit 0xAA00 i) /\
    (forall i, 16 <= i < 32 ->
       Z.testbit (and32 (mem w GPIOA_AFRL) afrl_clear) i = false /\
       Z.testbit (or32 (and32 (mem w GPIOA_AFRL) afrl_clear)
                       afrl_set) i = Z.testbit 0x55550000 i).
Proof.
  exists (initialized w), (init_events (mem w)).
  split; [apply init_run|]. split; [apply initialized_trace|].
  split; [reflexivity|]. split; [reflexivity|].
  split; [apply initialized_mem_MODER|].
  split; [apply initialized_mem_AFRL|].
  split; intros i Hi.
  - assert (Hr : 0 <= i < 32) by lia.
    assert (Hf : (8 <=? i) && (i <? 16) = true).
    { destruct (Z.leb_spec 8 i); destruct (Z.ltb_spec i 16);
        try reflexivity; lia. }
    rewrite or32_bits, !and32_bits, moder_clear_bits, moder_set_bits
      by exact Hr.
    rewrite Hf. cbn [negb andb]. rewrite andb_false_r. auto.
  - assert (Hr : 0 <= i < 32) by lia.
    assert (Hf : (16 <=? i) = true).
    { destruct (Z.leb_spec 16 i); [reflexivity|lia]. }
    rewrite or32_bits, !and32_bits, afrl_clear_bits, afrl_set_bits
      by exact Hr.
    rewrite Hf. cbn [negb andb]. rewrite andb_false_r. auto.
Qed.

(** C3 (clocks first).  Among the accesses of [spi_init], the one write
    to the AHB1 clock-enable register (it has bit 0, the GPIOA clock,
    set) and the one write to the APB2 clock-enable register (it has bit
    12, the SPI1 clock, set) both come strictly before every write to the
    GPIO mode register, to the alternate-function register and to SPI
    control register 1. *)
Theorem C3_clock_enables_come_first (w : World) :
  exists w' evs,
    spi_init w = Done tt w' /\
    trace w' = trace w ++ evs /\
    exists i j a p,
      nth_error evs i = Some (EvWrite RCC_AHB1ENR a) /\
      Z.testbit a 0 = true /\
      writes_to RCC_AHB1ENR evs = [a] /\
      nth_error evs j = Some (EvWrite RCC_APB2ENR p) /\
      Z.testbit p 12 = true /\
      writes_to RCC_APB2ENR evs = [p] /\
      forall k e,
        nth_error evs k = Some e ->
        is_write_to GPIOA_MODER e || is_write_to GPIOA_AFRL e
          || is_write_to SPI1_CR1 e = true ->
        (i < k)%nat /\ (j < k)%nat.
Proof.
  exists (initialized w), (init_events (mem w)).
  split; [apply init_run|]. split; [apply initialized_trace|].
  exists 1%nat, 3%nat, (or32 (mem w RCC_AHB1ENR) (shl 1 0)),
    (or32 (mem w RCC_APB2ENR) (shl 1 12)).
  split; [reflexivity|].
  split.
  { rewrite or32_bits, gpio_clock_bits by lia. apply orb_true_r. }
  split; [reflexivity|]. split; [reflexivity|].
  split.
  { rewrite or32_bits, spi_clock_bits by lia. apply orb_true_r. }
  split; [reflexivity|].
  intros k e Hk Hw.
  unfold init_events, clock_events in Hk. cbn [app] in Hk.
  do 4 (destruct k as [|k];
        [cbn [nth_error] in Hk; injection Hk as <-;
         vm_compute in Hw; discriminate Hw|]).
  split; lia.
Qed.

(** C4 (enable last).  [spi_init] writes control register 1 six times:
    zero, then with the master bit, then with the divider, then twice
    more for CPOL and CPHA, then with bit 6 (enable).  A write to the
    register that has bit 6 set has exactly the first five of these
    before it. *)
Theorem C4_enable_bit_written_last (w : World) :
  exists w' evs,
    spi_init w = Done tt w' /\
    trace w' = trace w ++ evs /\
    writes_to SPI1_CR1 evs = [0; 0x04; 0x1C; 0x1C; 0x1C; 0x5C] /\
    forall pre v post,
      writes_to SPI1_CR1 evs = pre ++ v :: post ->
      Z.testbit v 6 = true ->
      pre = [0; 0x04; 0x1C; 0x1C; 0x1C] /\ v = 0x5C /\ post = [].
Proof.
  exists (initialized w), (init_events (mem w)).
  split; [apply init_run|]. split; [apply initialized_trace|].
  assert (Hw : writes_to SPI1_CR1 (init_events (mem w)) =
               [0; 0x04; 0x1C; 0x1C; 0x1C; 0x5C]) by reflexivity.
  split; [exact Hw|].
  intros pre v post Heq Hbit. rewrite Hw in Heq.
  do 5 (destruct pre as [|? pre]; cbn [app] in Heq;
        [injection Heq as <- _; vm_compute in Hbit; discriminate Hbit|];
        injection Heq as <- Heq).
  destruct pre as [|? pre]; cbn [app] in Heq.
  - injection Heq as <- <-. auto.
  - injection Heq as _ Heq. destruct pre; discriminate Heq.
Qed.

(** C8 (frame of initialisation).  Whatever the registers hold before the
    call, [spi_init] leaves bits 0..31 of the AHB1 clock-enable register
    other than bit 0, of the APB2 clock-enable register other than bit
    12, of the GPIO mode register outside bits 8..15 (the mode fields of
    PA4..PA7) and of the alternate-function register outside bits 16..31
    (the selector fields of PA4..PA7) as they were. *)
Theorem C8_init_keeps_other_bits (w : World) (i : Z) :
  0 <= i < 32 ->
  exists w',
    spi_init w = Done tt w' /\
    (i <> 0 ->
     Z.testbit (mem w' RCC_AHB1ENR) i = Z.testbit (mem w RCC_AHB1ENR) i) /\
    (i <> 12 ->
     Z.testbit (mem w' RCC_APB2ENR) i = Z.testbit (mem w RCC_APB2ENR) i) /\
    (~ 8 <= i < 16 ->
     Z.testbit (mem w' GPIOA_MODER) i = Z.testbit (mem w GPIOA_MODER) i) /\
    (~ 16 <= i < 32 ->
     Z.testbit (mem w' GPIOA_AFRL) i = Z.testbit (mem w GPIOA_AFRL) i).
Proof.
  intros Hi. exists (initialized w). split; [apply init_run|].
  split; [|split; [|split]]; intros Hout.
  - rewrite initialized_mem_AHB1ENR, or32_bits, gpio_clock_bits
      by exact Hi.
    destruct (Z.eqb_spec i 0); [contradiction|]. apply orb_false_r.
  - rewrite initialized_mem_APB2ENR, or32_bits, spi_clock_bits
      by exact Hi.
    destruct (Z.eqb_spec i 12); [contradiction|]. apply orb_false_r.
  - rewrite initialized_mem_MODER, or32_bits, and32_bits,
      moder_clear_bits, moder_set_bits by exact Hi.
    assert (Hf : (8 <=? i) && (i <? 16) = false).
    { destruct (Z.leb_spec 8 i); destruct (Z.ltb_spec i 16);
        try reflexivity. lia. }
    rewrite Hf. cbn [negb andb]. rewrite andb_true_r, orb_false_r.
    reflexivity.
  - rewrite initialized_mem_AFRL, or32_bits, and32_bits,
      afrl_clear_bits, afrl_set_bits by exact Hi.
    assert (Hf : (16 <=? i) = false).
    { destruct (Z.leb_spec 16 i); [lia|reflexivity]. }
    rewrite Hf. cbn [negb andb]. rewrite andb_true_r, orb_false_r.
    reflexivity.
Qed.

(** C9 (control register 1).  Whatever the registers hold before the
    call, the first access [spi_init] makes to control register 1 is the
    write of zero, and it leaves the register holding 0x5C: master bit
    (2) set, divider field (bits 3..5) equal to 3, CPOL (bit 1) and CPHA
    (bit 0) clear, enable bit (6) set. *)
Theorem C9_cr1_final_value (w : World) :
  exists w' evs,
    spi_init w = Done tt w' /\
    trace w' = trace w ++ evs /\
    hd_error (filter (fun e => is_write_to SPI1_CR1 e
                               || is_read_of SPI1_CR1 e) evs)
      = Some (EvWrite SPI1_CR1 0) /\
    mem w' SPI1_CR1 = 0x5C /\
    Z.testbit (mem w' SPI1_CR1) 2 = true /\
    Z.land (Z.shiftr (mem w' SPI1_CR1) 3) 7 = 3 /\
    Z.testbit (mem w' SPI1_CR1) 1 = false /\
    Z.testbit (mem w' SPI1_CR1) 0 = false /\
    Z.testbit (mem w' SPI1_CR1) 6 = true.
Proof.
  exists (initialized w), (init_events (mem w)).
  split; [apply init_run|]. split; [apply initialized_trace|].
  split; [reflexivity|].
  rewrite initialized_mem_CR1. repeat split; reflexivity.
Qed.

(** ** [spi_transmit] and [spi_receive] called on their own *)

Lemma transmit_progress (fuel : nat) (data : Z) (w : World) :
  TxProgress fuel data w (spi_transmit fuel data w).
Proof.
  rewrite transmit_run.
  destruct (sr_wait_cases txe_clear fuel w)
    as [[S1 E1]|(n1 & F1 & H1 & E1)]; rewrite E1.
  { apply TxStuckTxe. exact S1. }
  cbv iota beta.
  destruct (sr_wait_cases bsy_set fuel
              (stored SPI1_DR (wrap8 data) (polled (S n1) w)))
    as [[S2 E2]|(n2 & F2 & H2 & E2)]; rewrite E2.
  { apply (TxStuckBsy fuel data w n1 F1 H1 S2). }
  apply (TxReturned fuel data w n1 n2 F1 F2 H1 H2).
Qed.

Lemma transmit_returns (fuel : nat) (data : Z) (w : World) (n1 n2 : nat) :
  observed txe_clear (sr_count w) n1 ->
  observed bsy_set (sr_count w + S n1) n2 ->
  (n1 < fuel)%nat -> (n2 < fuel)%nat ->
  spi_transmit fuel data w = Done tt (transmitting data n1 (S n2) w).
Proof.
  intros H1 H2 F1 F2. rewrite transmit_run.
  rewrite (sr_wait_returns txe_clear n1 fuel w H1 F1). cbv iota beta.
  apply (sr_wait_returns bsy_set n2 fuel
           (stored SPI1_DR (wrap8 data) (polled (S n1) w)) H2 F2).
Qed.

Lemma transmit_inv (fuel : nat) (data : Z) (w : World)
      (u : unit) (w' : World) :
  spi_transmit fuel data w = Done u w' ->
  exists n1 n2,
    (n1 < fuel)%nat /\ (n2 < fuel)%nat /\
    observed txe_clear (sr_count w) n1 /\
    observed bsy_set (sr_count w + S n1) n2 /\
    w' = transmitting data n1 (S n2) w.
Proof.
  intros H. pose proof (transmit_progress fuel data w) as P.
  rewrite H in P. inversion P; subst. exists n1, n2. auto 10.
Qed.

Lemma trace_transmitting (data : Z) (n1 k : nat) (w : World) :
  trace (transmitting data n1 k w) =
  trace w ++ sr_events (sr_count w) n1 ++
  [EvRead SPI1_SR (srv (sr_count w + n1)); EvWrite SPI1_DR (wrap8 data)] ++
  sr_events (sr_count w + S n1) k.
Proof.
  unfold transmitting.
  rewrite trace_polled, trace_stored, trace_polled, sr_events_S.
  rewrite wrap32_wrap8. flat. reflexivity.
Qed.

Lemma mem_transmitting (data : Z) (n1 k : nat) (w : World) :
  mem (transmitting data n1 k w) = upd (mem w) SPI1_DR (wrap8 data).
Proof.
  unfold transmitting, polled. cbn [mem].
  rewrite mem_stored, wrap32_wrap8. reflexivity.
Qed.

Lemma observed_bsy_clear (c n : nat) :
  observed bsy_set c n -> Z.testbit (srv (c + n)) 7 = false.
Proof. intros [_ H]. rewrite bsy_set_bit in H. exact H. Qed.

Lemma no_read_reads_of (a : Z) (t : list Event) :
  Forall (fun e => is_read_of a e = false) t -> reads_of a t = [].
Proof.
  intros H. unfold reads_of.
  induction H as [|e t He _ IH]; [reflexivity|].
  cbn [filter]. rewrite He. exact IH.
Qed.

Lemma reads_of_DR_sr_events (c n : nat) :
  reads_of SPI1_DR (sr_events c n) = [].
Proof. apply no_read_reads_of, sr_events_no_DR_read. Qed.

Lemma writes_to_sr_events (a : Z) (c n : nat) :
  writes_to a (sr_events c n) = [].
Proof. apply no_write_writes_to, sr_events_no_write. Qed.

Lemma sr_events_are_status_reads (c n : nat) :
  Forall (fun e => exists v, e = EvRead SPI1_SR v) (sr_events c n).
Proof.
  apply Forall_forall. intros e He. unfold sr_events in He.
  apply in_map_iff in He. destruct He as (k & <- & _). eauto.
Qed.

(** X1.  A returning [spi_transmit] has made these accesses and no
    others: status reads with TXE (bit 1) clear, one with TXE set, the
    write of the low 8 bits of its argument to the data register, status
    reads with BSY (bit 7) set, one with BSY clear.  It has changed no
    register but the data register and has not read the data register. *)
Theorem X1_transmit_on_return (fuel : nat) (data : Z) (w w' : World) :
  spi_transmit fuel data w = Done tt w' ->
  exists idle1 v1 idle2 v2,
    trace w' =
      trace w ++ idle1 ++
      [EvRead SPI1_SR v1; EvWrite SPI1_DR (wrap8 data)] ++
      idle2 ++ [EvRead SPI1_SR v2] /\
    Forall (fun e => exists u, e = EvRead SPI1_SR u /\
                               Z.testbit u 1 = false) idle1 /\
    Z.testbit v1 1 = true /\
    Forall (fun e => exists u, e = EvRead SPI1_SR u /\
                               Z.testbit u 7 = true) idle2 /\
    Z.testbit v2 7 = false /\
    mem w' SPI1_DR = wrap8 data /\
    (forall a, a <> SPI1_DR -> mem w' a = mem w a) /\
    dr_count w' = dr_count w.
Proof.
  intros H. apply transmit_inv in H.
  destruct H as (n1 & n2 & _ & _ & H1 & H2 & ->).
  exists (sr_events (sr_count w) n1), (srv (sr_count w + n1)).
  exists (sr_events (sr_count w + S n1) n2),
    (srv (sr_count w + S n1 + n2)).
  split.
  { rewrite trace_transmitting, sr_events_S. flat. reflexivity. }
  split.
  { destruct H1 as [Hs _]. apply spinning_idle in Hs.
    eapply Forall_impl; [|exact Hs]. cbv beta.
    intros e (u & -> & Hu). exists u. split; [reflexivity|].
    rewrite txe_clear_bit in Hu.
    destruct (Z.testbit u 1); [discriminate|reflexivity]. }
  split; [apply observed_txe_set; exact H1|].
  split.
  { destruct H2 as [Hs _]. apply spinning_idle in Hs.
    eapply Forall_impl; [|exact Hs]. cbv beta.
    intros e (u & -> & Hu). exists u. split; [reflexivity|].
    rewrite bsy_set_bit in Hu. exact Hu. }
  split; [apply observed_bsy_clear; exact H2|].
  rewrite mem_transmitting.
  split; [apply upd_same|].
  split; [|reflexivity].
  intros a Ha. apply upd_other. exact Ha.
Qed.

(** X2.  [spi_transmit] returns on some budget exactly when TXE is seen
    set after some number of status reads and BSY is then seen clear.  If
    TXE never shows set, the call is still in its first wait on every
    budget, with every register as it was and no write to the data
    register made. *)
Theorem X2_transmit_returns_iff (data : Z) (w : World) :
  ((exists fuel w', spi_transmit fuel data w = Done tt w') <->
   (exists n1 n2,
       observed txe_clear (sr_count w) n1 /\
       observed bsy_set (sr_count w + S n1) n2)) /\
  ((forall k, (sr_count w <= k)%nat -> Z.testbit (srv k) 1 = false) ->
   forall fuel,
   exists w',
     spi_transmit fuel data w = Stalled w' /\
     (forall a, mem w' a = mem w a) /\
     writes_to SPI1_DR (trace w') = writes_to SPI1_DR (trace w)).
Proof.
  split.
  - split.
    + intros (fuel & w' & H). apply transmit_inv in H.
      destruct H as (n1 & n2 & _ & _ & H1 & H2 & _). eauto.
    + intros (n1 & n2 & H1 & H2).
      exists (S (n1 + n2)), (transmitting data n1 (S n2) w).
      apply transmit_returns; assumption || lia.
  - intros Hnever fuel. exists (polled fuel w). split.
    + rewrite transmit_run, sr_wait_stalls; [reflexivity|].
      intros k Hk. rewrite txe_clear_bit, Hnever by exact Hk.
      reflexivity.
    + split; [reflexivity|].
      rewrite trace_polled, writes_to_app, writes_to_sr_events.
      apply app_nil_r.
Qed.

Lemma receive_cases (fuel : nat) (w : World) :
  (spinning rxne_clear (sr_count w) fuel /\
   spi_receive fuel w = Stalled (polled fuel w)) \/
  (exists n, (n < fuel)%nat /\ observed rxne_clear (sr_count w) n /\
             spi_receive fuel w
             = Done (wrap8 (drv (dr_count w))) (received n w)).
Proof.
  rewrite receive_run.
  destruct (sr_wait_cases rxne_clear fuel w)
    as [[S1 E1]|(n & F & H & E1)]; rewrite E1.
  - left. auto.
  - right. exists n. auto.
Qed.

(** X3.  [spi_receive] writes nothing: whether it returns or is still
    waiting, every register holds what it held, and the accesses it made
    are reads of the status register and of the data register. *)
Theorem X3_receive_only_reads (fuel : nat) (w : World) :
  (forall a, mem (world_of (spi_receive fuel w)) a = mem w a) /\
  exists evs,
    trace (world_of (spi_receive fuel w)) = trace w ++ evs /\
    Forall (fun e => exists a v,
                e = EvRead a v /\ (a = SPI1_SR \/ a = SPI1_DR)) evs.
Proof.
  destruct (receive_cases fuel w) as [[_ E]|(n & _ & _ & E)];
    rewrite E; cbn [world_of].
  - split; [reflexivity|].
    exists (sr_events (sr_count w) fuel). split; [apply trace_polled|].
    eapply Forall_impl; [|apply sr_events_are_status_reads].
    cbv beta. intros e (v & ->). eauto.
  - split; [reflexivity|].
    exists (sr_events (sr_count w) (S n) ++
            [EvRead SPI1_DR (drv (dr_count w))]).
    split.
    { unfold received. rewrite trace_loaded_dr, trace_polled.
      flat. reflexivity. }
    apply Forall_app; split.
    + eapply Forall_impl; [|apply sr_events_are_status_reads].
      cbv beta. intros e (v & ->). eauto.
    + apply Forall_cons; [eauto|apply Forall_nil].
Qed.

(** X4.  [spi_receive] returns on some budget exactly when RXNE is seen
    set after some number of status reads.  What it returns is a byte
    (0..255), the low 8 bits of the one word it read from the data
    register, whatever the upper bits of that word.  If RXNE never shows
    set, the call is still waiting on every budget and has not read the
    data register. *)
Theorem X4_receive_returns_iff (w : World) :
  ((exists fuel rx w', spi_receive fuel w = Done rx w') <->
   (exists n, observed rxne_clear (sr_count w) n)) /\
  (forall fuel rx w',
      spi_receive fuel w = Done rx w' ->
      0 <= rx < 256 /\
      rx = wrap8 (drv (dr_count w)) /\
      dr_count w' = S (dr_count w) /\
      reads_of SPI1_DR (trace w') =
        reads_of SPI1_DR (trace w) ++ [drv (dr_count w)]) /\
  ((forall k, (sr_count w <= k)%nat -> Z.testbit (srv k) 0 = false) ->
   forall fuel,
   exists w',
     spi_receive fuel w = Stalled w' /\
     dr_count w' = dr_count w /\
     reads_of SPI1_DR (trace w') = reads_of SPI1_DR (trace w)).
Proof.
  split; [|split].
  - split.
    + intros (fuel & rx & w' & H). apply receive_inv in H.
      destruct H as (n & _ & Hobs & _). eauto.
    + intros (n & Hobs).
      exists (S n), (wrap8 (drv (dr_count w))), (received n w).
      destruct (receive_cases (S n) w) as [[Hs _]|(m & _ & Hm & E)].
      * pose proof (observed_not_spinning _ _ _ _ Hobs Hs). lia.
      * rewrite <- (observed_unique _ _ _ _ Hobs Hm) in E. exact E.
  - intros fuel rx w' H. apply receive_inv in H.
    destruct H as (n & _ & _ & -> & ->).
    split; [apply wrap8_range|]. split; [reflexivity|].
    split; [reflexivity|].
    rewrite trace_loaded_dr, trace_polled, !reads_of_app.
    rewrite reads_of_DR_sr_events, app_nil_r. reflexivity.
  - intros Hnever fuel. exists (polled fuel w). split.
    + rewrite receive_run, sr_wait_stalls; [reflexivity|].
      intros k Hk. rewrite rxne_clear_bit, Hnever by exact Hk.
      reflexivity.
    + split; [reflexivity|].
      rewrite trace_polled, reads_of_app, reads_of_DR_sr_events.
      apply app_nil_r.
Qed.

(** ** What an exchange leaves behind, returning or not *)

Lemma mem_waiting_txe (k : nat) (w : World) :
  mem (waiting_txe k w) = upd (mem w) GPIOA_ODR (cs_low (mem w GPIOA_ODR)).
Proof. reflexivity. Qed.

Lemma mem_waiting_bsy (data : Z) (n1 k : nat) (w : World) :
  mem (waiting_bsy data n1 k w) =
  upd (upd (mem w) GPIOA_ODR (cs_low (mem w GPIOA_ODR)))
      SPI1_DR (wrap32 (wrap8 (wrap8 data))).
Proof. reflexivity. Qed.

Lemma mem_waiting_rxne (data : Z) (n1 n2 k : nat) (w : World) :
  mem (waiting_rxne data n1 n2 k w) = mem (waiting_bsy data n1 (S n2) w).
Proof. reflexivity. Qed.

Lemma mem_exchanged (data : Z) (n1 n2 n3 : nat) (w : World) :
  mem (exchanged data n1 n2 n3 w) =
  upd (mem (waiting_bsy data n1 (S n2) w)) GPIOA_ODR
      (cs_high (mem (waiting_bsy data n1 (S n2) w) GPIOA_ODR)).
Proof. reflexivity. Qed.

Lemma mem_waiting_bsy_ODR (data : Z) (n1 k : nat) (w : World) :
  mem (waiting_bsy data n1 k w) GPIOA_ODR = cs_low (mem w GPIOA_ODR).
Proof.
  rewrite mem_waiting_bsy, (upd_other _ SPI1_DR) by exact ODR_not_DR.
  apply upd_same.
Qed.

(** X5.  Whether it returns or is still waiting, [spi_exchange_data]
    leaves every register other than the output-data register and the
    data register holding what it held: the configuration written by
    [spi_init] is not touched by a transfer. *)
Theorem X5_exchange_keeps_other_registers
        (fuel : nat) (data : Z) (w : World) (a : Z) :
  a <> GPIOA_ODR -> a <> SPI1_DR ->
  mem (world_of (spi_exchange_data fuel data w)) a = mem w a.
Proof.
  intros Ho Hd.
  destruct (exchange_progress fuel data w); cbn [world_of];
    rewrite ?mem_exchanged, ?mem_waiting_rxne, ?mem_waiting_bsy,
      ?mem_waiting_txe;
    repeat rewrite upd_other by assumption; reflexivity.
Qed.

(** X6.  The chip select tells how the call ended: after a returning
    [spi_exchange_data] bit 4 of the output-data register is set (slave
    deselected), whatever it was before; a call that is still waiting
    when its budget is used up has left bit 4 clear, the slave
    selected. *)
Theorem X6_chip_select_after_call (fuel : nat) (data : Z) (w : World) :
  match spi_exchange_data fuel data w with
  | Done _ w' => Z.testbit (mem w' GPIOA_ODR) 4 = true
  | Stalled w' => Z.testbit (mem w' GPIOA_ODR) 4 = false
  end.
Proof.
  destruct (exchange_progress fuel data w).
  - rewrite mem_waiting_txe, upd_same, cs_low_bits by lia.
    apply andb_false_r.
  - rewrite mem_waiting_bsy_ODR, cs_low_bits by lia. apply andb_false_r.
  - rewrite mem_waiting_rxne, mem_waiting_bsy_ODR, cs_low_bits by lia.
    apply andb_false_r.
  - rewrite exchanged_mem_ODR, cs_high_bits by lia. apply orb_true_r.
Qed.

Lemma reads_of_DR_txe_events (k : nat) (w : World) :
  reads_of SPI1_DR (txe_events k w) = [].
Proof. apply no_read_reads_of, txe_events_no_DR_read. Qed.

Lemma reads_of_DR_bsy_events (data : Z) (n1 k : nat) (w : World) :
  reads_of SPI1_DR (bsy_events data n1 k w) = [].
Proof. apply no_read_reads_of, bsy_events_no_DR_read. Qed.

Lemma reads_of_DR_rxne_events (data : Z) (n1 n2 k : nat) (w : World) :
  reads_of SPI1_DR (rxne_events data n1 n2 k w) = [].
Proof. apply no_read_reads_of, rxne_events_no_DR_read. Qed.

Lemma reads_of_DR_exchange_events (data : Z) (n1 n2 n3 : nat) (w : World) :
  reads_of SPI1_DR (exchange_events data n1 n2 n3 w) = [drv (dr_count w)].
Proof.
  unfold exchange_events. rewrite !reads_of_app.
  rewrite reads_of_DR_rxne_events. reflexivity.
Qed.

Lemma writes_to_DR_exchange_events (data : Z) (n1 n2 n3 : nat)
      (w : World) :
  writes_to SPI1_DR (exchange_events data n1 n2 n3 w) = [wrap8 data].
Proof.
  rewrite exchange_events_at_write, writes_to_app.
  rewrite (no_write_writes_to SPI1_DR (txe_events n1 w ++ _)).
  - change (writes_to SPI1_DR (EvWrite SPI1_DR ?v :: ?t))
      with (v :: writes_to SPI1_DR t).
    rewrite (no_write_writes_to _ _ (after_write_no_DR_write _ _ _ _ _ _ _)).
    reflexivity.
  - apply Forall_app; split; [apply txe_events_no_DR_write|].
    apply Forall_cons; [reflexivity|apply Forall_nil].
Qed.

(** X7.  A returning [spi_exchange_data] has read the data register
    exactly once, taking the next word the peripheral offers, and has
    written it exactly once; a call that is still waiting has not read
    the data register at all. *)
Theorem X7_exchange_data_register_traffic
        (fuel : nat) (data : Z) (w : World) :
  match spi_exchange_data fuel data w with
  | Done _ w' =>
      dr_count w' = S (dr_count w) /\
      reads_of SPI1_DR (trace w') =
        reads_of SPI1_DR (trace w) ++ [drv (dr_count w)] /\
      writes_to SPI1_DR (trace w') =
        writes_to SPI1_DR (trace w) ++ [wrap8 data]
  | Stalled w' =>
      dr_count w' = dr_count w /\
      reads_of SPI1_DR (trace w') = reads_of SPI1_DR (trace w)
  end.
Proof.
  destruct (exchange_progress fuel data w).
  - split; [reflexivity|].
    rewrite trace_waiting_txe, reads_of_app, reads_of_DR_txe_events.
    apply app_nil_r.
  - split; [reflexivity|].
    rewrite trace_waiting_bsy, reads_of_app, reads_of_DR_bsy_events.
    apply app_nil_r.
  - split; [reflexivity|].
    rewrite trace_waiting_rxne, reads_of_app, reads_of_DR_rxne_events.
    apply app_nil_r.
  - split; [reflexivity|].
    rewrite exchanged_trace, reads_of_app, writes_to_app.
    rewrite reads_of_DR_exchange_events, writes_to_DR_exchange_events.
    auto.
Qed.

(** ** More about [spi_init] *)

Lemma wrap32_bits_eq (a b : Z) :
  (forall i, 0 <= i < 32 ->
             Z.testbit (wrap32 a) i = Z.testbit (wrap32 b) i) ->
  wrap32 a = wrap32 b.
Proof.
  intros H. apply Z.bits_inj'. intros i Hi.
  destruct (Z.lt_ge_cases i 32) as [Hlt|Hge].
  - apply H. lia.
  - unfold wrap32. rewrite !Z.mod_pow2_bits_high by lia. reflexivity.
Qed.

Ltac bits32 i Hi :=
  repeat first [ rewrite wrap32_testbit by exact Hi
               | rewrite Z.lor_spec | rewrite Z.land_spec ].

Lemma or32_idem (v x : Z) : or32 (or32 v x) x = or32 v x.
Proof.
  unfold or32. apply wrap32_bits_eq. intros i Hi. bits32 i Hi.
  destruct (Z.testbit v i), (Z.testbit x i); reflexivity.
Qed.

Lemma clear_set_idem (v c s : Z) :
  or32 (and32 (or32 (and32 v c) s) c) s = or32 (and32 v c) s.
Proof.
  unfold or32, and32. apply wrap32_bits_eq. intros i Hi. bits32 i Hi.
  destruct (Z.testbit v i), (Z.testbit c i), (Z.testbit s i);
    reflexivity.
Qed.

Lemma initialized_mem_other (w : World) (a : Z) :
  a <> RCC_AHB1ENR -> a <> RCC_APB2ENR -> a <> GPIOA_MODER ->
  a <> GPIOA_AFRL -> a <> SPI1_CR1 ->
  mem (initialized w) a = mem w a.
Proof.
  intros H1 H2 H3 H4 H5. unfold_init.
  repeat rewrite upd_other by assumption. reflexivity.
Qed.

Lemma initialized_counts (w : World) :
  sr_count (initialized w) = sr_count w /\
  dr_count (initialized w) = dr_count w.
Proof. split; reflexivity. Qed.

(** X8.  Running [spi_init] a second time changes no register: after
    the first run every register already holds what the second run
    leaves in it. *)
Theorem X8_init_twice_is_init_once (w : World) :
  exists w1 w2,
    spi_init w = Done tt w1 /\
    spi_init w1 = Done tt w2 /\
    forall a, mem w2 a = mem w1 a.
Proof.
  exists (initialized w), (initialized (initialized w)).
  split; [apply init_run|]. split; [apply init_run|].
  intros a.
  destruct (Z.eq_dec a RCC_AHB1ENR) as [->|H1].
  { rewrite !initialized_mem_AHB1ENR. apply or32_idem. }
  destruct (Z.eq_dec a RCC_APB2ENR) as [->|H2].
  { rewrite !initialized_mem_APB2ENR. apply or32_idem. }
  destruct (Z.eq_dec a GPIOA_MODER) as [->|H3].
  { rewrite !initialized_mem_MODER. apply clear_set_idem. }
  destruct (Z.eq_dec a GPIOA_AFRL) as [->|H4].
  { rewrite !initialized_mem_AFRL. apply clear_set_idem. }
  destruct (Z.eq_dec a SPI1_CR1) as [->|H5].
  { rewrite !initialized_mem_CR1. reflexivity. }
  apply initialized_mem_other; assumption.
Qed.

(** X9.  [spi_init] works on five registers only (the two clock-enable
    registers, the GPIO mode and alternate-function registers, control
    register 1): every access it makes is to one of them, every other
    address keeps its content, and neither the status register nor the
    data register is read, so that no answer of the peripheral is used
    up. *)
Theorem X9_init_touches_five_registers (w : World) :
  exists w' evs,
    spi_init w = Done tt w' /\
    trace w' = trace w ++ evs /\
    Forall (fun e => is_config_access e = true) evs /\
    sr_count w' = sr_count w /\
    dr_count w' = dr_count w /\
    forall a,
      a <> RCC_AHB1ENR -> a <> RCC_APB2ENR -> a <> GPIOA_MODER ->
      a <> GPIOA_AFRL -> a <> SPI1_CR1 ->
      mem w' a = mem w a.
Proof.
  exists (initialized w), (init_events (mem w)).
  split; [apply init_run|]. split; [apply initialized_trace|].
  split.
  { unfold init_events, clock_events, pin_events, cr1_events.
    cbn [app].
    repeat (apply Forall_cons; [reflexivity|]). apply Forall_nil. }
  split; [reflexivity|]. split; [reflexivity|].
  intros a. apply initialized_mem_other.
Qed.

(** Reading a field of [width] bits at position [lo]. *)
Lemma field_value (x lo width val : Z) :
  0 <= lo -> 0 <= width -> 0 <= val < 2 ^ width ->
  (forall i, 0 <= i < width ->
             Z.testbit x (i + lo) = Z.testbit val i) ->
  Z.land (Z.shiftr x lo) (Z.ones width) = val.
Proof.
  intros Hlo Hw Hval H. apply Z.bits_inj'. intros i Hi.
  rewrite Z.land_spec, Z.shiftr_spec, Z.testbit_ones_nonneg by lia.
  destruct (Z.ltb_spec i width) as [Hlt|Hge].
  - rewrite andb_true_r. apply H. lia.
  - rewrite andb_false_r. symmetry.
    rewrite <- (Z.mod_small val (2 ^ width)) by exact Hval.
    apply Z.mod_pow2_bits_high. lia.
Qed.

Lemma moder_field_bits (w : World) (i : Z) :
  8 <= i < 16 ->
  Z.testbit (mem (initialized w) GPIOA_MODER) i = Z.testbit 0xAA00 i.
Proof.
  intros Hi. assert (Hr : 0 <= i < 32) by lia.
  assert (Hf : (8 <=? i) && (i <? 16) = true).
  { destruct (Z.leb_spec 8 i); destruct (Z.ltb_spec i 16);
      try reflexivity; lia. }
  rewrite initialized_mem_MODER, or32_bits, and32_bits,
    moder_clear_bits, moder_set_bits by exact Hr.
  rewrite Hf. cbn [negb andb]. rewrite andb_false_r. reflexivity.
Qed.

Lemma afrl_field_bits (w : World) (i : Z) :
  16 <= i < 32 ->
  Z.testbit (mem (initialized w) GPIOA_AFRL) i = Z.testbit 0x55550000 i.
Proof.
  intros Hi. assert (Hr : 0 <= i < 32) by lia.
  assert (Hf : (16 <=? i) = true).
  { destruct (Z.leb_spec 16 i); [reflexivity|lia]. }
  rewrite initialized_mem_AFRL, or32_bits, and32_bits,
    afrl_clear_bits, afrl_set_bits by exact Hr.
  rewrite Hf. cbn [negb andb]. rewrite andb_false_r. reflexivity.
Qed.

(** X10.  After [spi_init], whatever the registers held: the GPIOA clock
    (bit 0 of the AHB1 enable register) and the SPI1 clock (bit 12 of
    the APB2 enable register) are on, and each of the pins 4..7 has its
    2-bit mode field equal to 2 (alternate function) and its 4-bit
    selector field equal to 5 (SPI1). *)
Theorem X10_init_result (w : World) (pin : Z) :
  4 <= pin <= 7 ->
  exists w',
    spi_init w = Done tt w' /\
    Z.testbit (mem w' RCC_AHB1ENR) 0 = true /\
    Z.testbit (mem w' RCC_APB2ENR) 12 = true /\
    Z.land (Z.shiftr (mem w' GPIOA_MODER) (2 * pin)) 3 = 2 /\
    Z.land (Z.shiftr (mem w' GPIOA_AFRL) (4 * pin)) 0xF = 5.
Proof.
  intros Hp. exists (initialized w). split; [apply init_run|].
  split.
  { rewrite initialized_mem_AHB1ENR, or32_bits, gpio_clock_bits by lia.
    apply orb_true_r. }
  split.
  { rewrite initialized_mem_APB2ENR, or32_bits, spi_clock_bits by lia.
    apply orb_true_r. }
  assert (Hc : pin = 4 \/ pin = 5 \/ pin = 6 \/ pin = 7) by lia.
  split.
  - change 3 with (Z.ones 2). apply field_value; try lia.
    intros i Hi. rewrite moder_field_bits by lia.
    assert (Hi' : i = 0 \/ i = 1) by lia.
    destruct Hc as [->|[->|[->| ->]]]; destruct Hi' as [->| ->];
      reflexivity.
  - change 0xF with (Z.ones 4). apply field_value; try lia.
    intros i Hi. rewrite afrl_field_bits by lia.
    assert (Hi' : i = 0 \/ i = 1 \/ i = 2 \/ i = 3) by lia.
    destruct Hc as [->|[->|[->| ->]]];
      destruct Hi' as [->|[->|[->| ->]]]; reflexivity.
Qed.

Lemma all_before_spec (p q : Event -> bool) (t : list Event) :
  all_before p q t = true ->
  forall i j ei ej,
    nth_error t i = Some ei -> nth_error t j = Some ej ->
    p ei = true -> q ej = true -> (i < j)%nat.
Proof.
  induction t as [|e t IH]; intros H i j ei ej Hi Hj Hp Hq.
  - destruct i; discriminate Hi.
  - cbn [all_before] in H. apply andb_true_iff in H.
    destruct H as [Hhead Htail].
    destruct j as [|j].
    + cbn [nth_error] in Hj. injection Hj as ->.
      rewrite Hq in Hhead. rewrite forallb_forall in Hhead.
      apply nth_error_In in Hi. specialize (Hhead ei Hi).
      rewrite Hp in Hhead. discriminate Hhead.
    + destruct i as [|i]; [lia|].
      cbn [nth_error] in Hi, Hj.
      pose proof (IH Htail i j ei ej Hi Hj Hp Hq). lia.
Qed.

(** X11.  [spi_init] configures in this order: every write to the GPIO
    mode register comes before every write to the alternate-function
    register, and every write to either comes before every write to SPI
    control register 1; the pins are routed to the peripheral before it
    is set up and enabled. *)
Theorem X11_init_pins_before_peripheral (w : World) :
  exists w' evs,
    spi_init w = Done tt w' /\
    trace w' = trace w ++ evs /\
    forall i j ei ej,
      nth_error evs i = Some ei -> nth_error evs j = Some ej ->
      (is_write_to GPIOA_MODER ei = true /\
       is_write_to GPIOA_AFRL ej = true) \/
      (is_write_to GPIOA_MODER ei || is_write_to GPIOA_AFRL ei = true /\
       is_write_to SPI1_CR1 ej = true) ->
      (i < j)%nat.
Proof.
  exists (initialized w), (init_events (mem w)).
  split; [apply init_run|]. split; [apply initialized_trace|].
  intros i j ei ej Hi Hj [[Hp Hq]|[Hp Hq]].
  - refine (all_before_spec (is_write_to GPIOA_MODER)
              (is_write_to GPIOA_AFRL) _ _ i j ei ej Hi Hj Hp Hq).
    reflexivity.
  - refine (all_before_spec
              (fun e => is_write_to GPIOA_MODER e
                        || is_write_to GPIOA_AFRL e)
              (is_write_to SPI1_CR1) _ _ i j ei ej Hi Hj Hp Hq).
    reflexivity.
Qed.

(** ** [main] *)

Lemma transfer_sr_events (c n : nat) :
  Forall (fun e => is_transfer_access e = true) (sr_events c n).
Proof.
  apply Forall_forall. intros e He. unfold sr_events in He.
  apply in_map_iff in He. destruct He as (k & <- & _). reflexivity.
Qed.

Ltac transfers :=
  repeat (apply Forall_app; split);
  try apply transfer_sr_events;
  repeat (apply Forall_cons; [reflexivity|]);
  try apply Forall_nil.

Lemma exchange_extends (fuel : nat) (data : Z) (w : World) :
  exists evs,
    trace (world_of (spi_exchange_data fuel data w)) = trace w ++ evs /\
    Forall (fun e => is_transfer_access e = true) evs.
Proof.
  destruct (exchange_progress fuel data w); cbn [world_of].
  - exists (txe_events fuel w). split; [apply trace_waiting_txe|].
    unfold txe_events, select_events. transfers.
  - exists (bsy_events data n1 fuel w).
    split; [apply trace_waiting_bsy|].
    unfold bsy_events, txe_events, select_events.
    apply Forall_app; split; [transfers|].
    apply Forall_cons; [reflexivity|apply transfer_sr_events].
  - exists (rxne_events data n1 n2 fuel w).
    split; [apply trace_waiting_rxne|].
    unfold rxne_events, txe_events, select_events.
    apply Forall_app; split; [transfers|].
    apply Forall_cons; [reflexivity|transfers].
  - exists (exchange_events data n1 n2 n3 w).
    split; [apply exchanged_trace|].
    unfold exchange_events, rxne_events, txe_events, select_events,
      deselect_events.
    apply Forall_app; split.
    + apply Forall_app; split; [|transfers].
      apply Forall_app; split; [transfers|].
      apply Forall_cons; [reflexivity|transfers].
    + transfers.
Qed.

Lemma exchange_keeps_other (fuel : nat) (data : Z) (w : World) (a : Z) :
  a <> GPIOA_ODR -> a <> SPI1_DR ->
  mem (world_of (spi_exchange_data fuel data w)) a = mem w a.
Proof.
  intros Ho Hd.
  destruct (exchange_progress fuel data w); cbn [world_of];
    rewrite ?mem_exchanged, ?mem_waiting_rxne, ?mem_waiting_bsy,
      ?mem_waiting_txe;
    repeat rewrite upd_other by assumption; reflexivity.
Qed.

Lemma while_do_step (rounds : nat) (body : M unit) (w : World) :
  while_do (S rounds) (ret (truthy 1)) body w =
  match body w with
  | Done _ w' => while_do rounds (ret (truthy 1)) body w'
  | Stalled w' => Stalled w'
  end.
Proof. reflexivity. Qed.

(** The transfer loop of [main] never leaves, makes transfer accesses
    only and keeps the configuration. *)
Lemma transfer_loop (fuel rounds : nat) :
  forall w,
  exists w' evs,
    while_do rounds (ret (truthy 1)) (spi_exchange_data fuel 0x55) w
      = Stalled w' /\
    trace w' = trace w ++ evs /\
    Forall (fun e => is_transfer_access e = true) evs /\
    forall a, a <> GPIOA_ODR -> a <> SPI1_DR -> mem w' a = mem w a.
Proof.
  induction rounds as [|rounds IH]; intros w.
  - exists w, []. split; [reflexivity|].
    split; [symmetry; apply app_nil_r|]. split; [apply Forall_nil|].
    reflexivity.
  - rewrite while_do_step.
    destruct (exchange_extends fuel 0x55 w) as (evs1 & Ht1 & Hf1).
    pose proof (exchange_keeps_other fuel 0x55 w) as Hm1.
    destruct (spi_exchange_data fuel 0x55 w) as [u w1|w1];
      cbn [world_of] in Ht1, Hm1.
    + destruct (IH w1) as (w' & evs & E & Ht & Hf & Hm).
      exists w', (evs1 ++ evs). split; [exact E|].
      split; [rewrite Ht, Ht1, app_assoc; reflexivity|].
      split; [apply Forall_app; auto|].
      intros a Ho Hd. rewrite Hm, Hm1 by assumption. reflexivity.
    + exists w1, evs1. auto.
Qed.

Lemma main_run (rounds fuel : nat) (w : World) :
  main rounds fuel w =
  match while_do rounds (ret (truthy 1)) (spi_exchange_data fuel 0x55)
                 (initialized w) with
  | Done _ w' => Done 0 w'
  | Stalled w' => Stalled w'
  end.
Proof.
  unfold main. rewrite (bind_run _ _ _ _ _ (init_run w)).
  unfold bind.
  destruct (while_do rounds (ret (truthy 1))
              (spi_exchange_data fuel 0x55) (initialized w));
    reflexivity.
Qed.

(** X12.  [main] never returns, and however far it gets: all accesses of
    [spi_init] come first, everything after them is an access to the
    output-data, status or data register, and every other register still
    holds what [spi_init] left in it (control register 1 holds 0x5C): no
    transfer starts before the peripheral is configured, and no transfer
    disturbs the configuration. *)
Theorem X12_main_configures_then_transfers (rounds fuel : nat) (w : World) :
  exists w0 w' evs,
    spi_init w = Done tt w0 /\
    main rounds fuel w = Stalled w' /\
    trace w' = trace w0 ++ evs /\
    Forall (fun e => is_transfer_access e = true) evs /\
    (forall a, a <> GPIOA_ODR -> a <> SPI1_DR -> mem w' a = mem w0 a) /\
    mem w' SPI1_CR1 = 0x5C.
Proof.
  destruct (transfer_loop fuel rounds (initialized w))
    as (w' & evs & E & Ht & Hf & Hm).
  exists (initialized w), w', evs.
  split; [apply init_run|].
  split; [rewrite main_run, E; reflexivity|].
  split; [exact Ht|]. split; [exact Hf|]. split; [exact Hm|].
  rewrite Hm by addr_neq. apply initialized_mem_CR1.
Qed.

Lemma exchange_ready (fuel : nat) (data : Z) (w : World) :
  always_ready -> (0 < fuel)%nat ->
  spi_exchange_data fuel data w = Done tt (exchanged data 0 0 0 w).
Proof.
  intros Hr Hf. apply exchange_returns; try exact Hf.
  - apply observed_0. rewrite txe_clear_bit.
    destruct (Hr (sr_count w)) as (-> & _ & _). reflexivity.
  - apply observed_0. rewrite bsy_set_bit.
    destruct (Hr (sr_count w + 1)%nat) as (_ & -> & _). reflexivity.
  - apply observed_0. rewrite rxne_clear_bit.
    destruct (Hr (sr_count w + 1 + 1)%nat) as (_ & _ & ->). reflexivity.
Qed.

Lemma transfer_loop_ready (fuel rounds : nat) :
  always_ready -> (0 < fuel)%nat ->
  forall w,
    while_do rounds (ret (truthy 1)) (spi_exchange_data fuel 0x55) w
    = Stalled (exchanged_n rounds 0x55 w).
Proof.
  intros Hr Hf. induction rounds as [|rounds IH]; intros w.
  - reflexivity.
  - rewrite while_do_step, (exchange_ready fuel 0x55 w Hr Hf).
    apply IH.
Qed.

Lemma exchanged_n_dr_writes (n : nat) (data : Z) :
  forall w,
    writes_to SPI1_DR (trace (exchanged_n n data w)) =
    writes_to SPI1_DR (trace w) ++ repeat (wrap8 data) n.
Proof.
  induction n as [|n IH]; intros w; cbn [exchanged_n repeat].
  - symmetry. apply app_nil_r.
  - rewrite IH, exchanged_trace, writes_to_app.
    rewrite writes_to_DR_exchange_events, <- app_assoc. reflexivity.
Qed.

Lemma exchanged_n_dr_reads (n : nat) (data : Z) :
  forall w,
    reads_of SPI1_DR (trace (exchanged_n n data w)) =
    reads_of SPI1_DR (trace w) ++ map drv (seq (dr_count w) n).
Proof.
  induction n as [|n IH]; intros w; cbn [exchanged_n seq map].
  - symmetry. apply app_nil_r.
  - rewrite IH, exchanged_trace, reads_of_app.
    rewrite reads_of_DR_exchange_events, <- app_assoc. reflexivity.
Qed.

Lemma exchanged_n_sr_reads (n : nat) (data : Z) :
  forall w,
    length (reads_of SPI1_SR (trace (exchanged_n n data w))) =
    (length (reads_of SPI1_SR (trace w)) + 3 * n)%nat.
Proof.
  induction n as [|n IH]; intros w; cbn [exchanged_n].
  - lia.
  - rewrite IH, exchanged_trace, reads_of_app, length_app.
    assert (H3 : length (reads_of SPI1_SR (exchange_events data 0 0 0 w))
                 = 3%nat) by reflexivity.
    rewrite H3. lia.
Qed.

(** X13.  On a peripheral that is always ready (TXE and RXNE set, BSY
    clear at every status read), [rounds] turns of the loop of [main]
    write 0x55 to the data register [rounds] times, read the next
    [rounds] words the peripheral offers, and make three status reads per
    turn: no wait ever spins. *)
Theorem X13_main_on_ready_peripheral (rounds fuel : nat) (w : World) :
  always_ready -> (0 < fuel)%nat ->
  exists w',
    main rounds fuel w = Stalled w' /\
    writes_to SPI1_DR (trace w') =
      writes_to SPI1_DR (trace w) ++ repeat 0x55 rounds /\
    reads_of SPI1_DR (trace w') =
      reads_of SPI1_DR (trace w) ++ map drv (seq (dr_count w) rounds) /\
    length (reads_of SPI1_SR (trace w')) =
      (length (reads_of SPI1_SR (trace w)) + 3 * rounds)%nat.
Proof.
  intros Hr Hf. exists (exchanged_n rounds 0x55 (initialized w)).
  split.
  { rewrite main_run, (transfer_loop_ready fuel rounds Hr Hf).
    reflexivity. }
  rewrite exchanged_n_dr_writes, exchanged_n_dr_reads,
    exchanged_n_sr_reads.
  rewrite initialized_trace, writes_to_app, !reads_of_app.
  assert (Hw : writes_to SPI1_DR (init_events (mem w)) = [])
    by reflexivity.
  assert (Hd : reads_of SPI1_DR (init_events (mem w)) = [])
    by reflexivity.
  assert (Hs : reads_of SPI1_SR (init_events (mem w)) = [])
    by reflexivity.
  rewrite Hw, Hd, Hs, !app_nil_r.
  change (wrap8 0x55) with 0x55.
  change (dr_count (initialized w)) with (dr_count w). auto.
Qed.

End Driver.

(** ** The theorems at concrete register files *)

(** C1 at: flags ready at once, 0xAA in the data register. *)
Lemma C1_receive_returns_exchange_is_void_witness :
  spi_exchange_data ready_sr dr_AA 1 0x55 all_ones
    = Done tt (exchanged ready_sr dr_AA 0x55 0 0 0 all_ones) /\
  exists w1 rx w2,
    spi_transmit ready_sr dr_AA 1 (wrap8 0x55) (selected all_ones)
      = Done tt w1 /\
    spi_receive ready_sr dr_AA 1 w1 = Done rx w2 /\
    exchanged ready_sr dr_AA 0x55 0 0 0 all_ones = deselected w2.
Proof.
  assert (Hrun : spi_exchange_data ready_sr dr_AA 1 0x55 all_ones
                 = Done tt (exchanged ready_sr dr_AA 0x55 0 0 0 all_ones))
    by (vm_compute; reflexivity).
  split; [exact Hrun|].
  exact (proj2 (proj2 (C1_receive_returns_exchange_is_void ready_sr dr_AA)
                      1%nat 0x55 all_ones tt _ Hrun)).
Defined.

(** C5 at: every register 0xFFFFFFFF, TXE held clear for three status
    reads, byte 0x55 sent, 0xAA received (the call returns); and at the
    same input with a budget of two status reads per wait (the call is
    still in its first wait). *)
Lemma C5_select_bracket_witness :
  (exists w',
      spi_exchange_data slow_sr dr_AA 10 0x55 all_ones = Done tt w' /\
      exists o lo mid hi,
        trace w' =
          trace all_ones ++ [EvRead GPIOA_ODR o; EvWrite GPIOA_ODR lo] ++
                            mid ++ [EvWrite GPIOA_ODR hi] /\
        Z.testbit lo 4 = false /\
        Z.testbit hi 4 = true /\
        Forall (fun e => is_write_to GPIOA_ODR e = false) mid /\
        writes_to SPI1_DR mid = [wrap8 0x55] /\
        reads_of SPI1_SR (trace w')
        = reads_of SPI1_SR (trace all_ones ++ mid)) /\
  (exists w',
      spi_exchange_data slow_sr dr_AA 2 0x55 all_ones = Stalled w' /\
      exists o lo rest,
        trace w' =
          trace all_ones ++ [EvRead GPIOA_ODR o; EvWrite GPIOA_ODR lo] ++
                            rest /\
        Z.testbit lo 4 = false /\
        Forall (fun e => is_write_to GPIOA_ODR e = false) rest).
Proof.
  split.
  - exists (exchanged slow_sr dr_AA 0x55 3 0 0 all_ones).
    assert (Hrun : spi_exchange_data slow_sr dr_AA 10 0x55 all_ones
                   = Done tt (exchanged slow_sr dr_AA 0x55 3 0 0 all_ones))
      by (vm_compute; reflexivity).
    split; [exact Hrun|].
    destruct (C5_select_bracket slow_sr dr_AA 10 0x55 all_ones)
      as (o & lo & rest & Ht & Hlo & _ & Hm).
    rewrite Hrun in Ht, Hm. cbn [world_of] in Ht.
    destruct Hm as (mid & hi & -> & Hhi & Hmid & Hdr & Hsr).
    exists o, lo, mid, hi. auto 10.
  - exists (waiting_txe slow_sr 2 all_ones).
    assert (Hrun : spi_exchange_data slow_sr dr_AA 2 0x55 all_ones
                   = Stalled (waiting_txe slow_sr 2 all_ones))
      by (vm_compute; reflexivity).
    split; [exact Hrun|].
    destruct (C5_select_bracket slow_sr dr_AA 2 0x55 all_ones)
      as (o & lo & rest & Ht & Hlo & _ & Hm).
    rewrite Hrun in Ht, Hm. cbn [world_of] in Ht.
    exists o, lo, rest. auto.
Defined.

(** C6 at the same input: three idle status reads, then the write. *)
Lemma C6_poll_then_act_witness :
  (3 < 10)%nat /\
  (forall j, (j < 3)%nat ->
             Z.testbit (srv slow_sr (sr_count all_ones + j)) 1 = false) /\
  Z.testbit (srv slow_sr (sr_count all_ones + 3)) 1 = true /\
  exists o lo idle v rest,
    trace (world_of (spi_exchange_data slow_sr dr_AA 10 0x55 all_ones)) =
      trace all_ones ++ [EvRead GPIOA_ODR o; EvWrite GPIOA_ODR lo] ++
                        idle ++
                        [EvRead SPI1_SR v; EvWrite SPI1_DR (wrap8 0x55)] ++
                        rest /\
    length idle = 3%nat /\
    Forall (fun e => exists u, e = EvRead SPI1_SR u /\
                               Z.testbit u 1 = false) idle /\
    Z.testbit v 1 = true /\
    writes_to SPI1_DR rest = [].
Proof.
  assert (Hfuel : (3 < 10)%nat) by lia.
  assert (Hidle : forall j, (j < 3)%nat ->
            Z.testbit (srv slow_sr (sr_count all_ones + j)) 1 = false).
  { intros j Hj. do 3 (destruct j as [|j]; [reflexivity|]). lia. }
  assert (Hset : Z.testbit (srv slow_sr (sr_count all_ones + 3)) 1 = true)
    by reflexivity.
  split; [exact Hfuel|]. split; [exact Hidle|]. split; [exact Hset|].
  exact (proj2 (C6_poll_then_act slow_sr dr_AA 10 0x55 all_ones)
               3%nat Hfuel Hidle Hset).
Defined.

(** C7 at: the slow script (the call returns) and the silent script (the
    call is still in its first wait on every budget). *)
Lemma C7_returns_iff_flags_observed_witness :
  (exists fuel w',
      spi_exchange_data slow_sr dr_AA fuel 0x55 all_ones = Done tt w') /\
  (forall fuel,
      spi_exchange_data silent_sr dr_AA fuel 0x55 all_ones
      = Stalled (waiting_txe silent_sr fuel all_ones)).
Proof.
  split.
  - apply (proj1 (C7_returns_iff_flags_observed slow_sr dr_AA 0x55
                    all_ones)).
    exists 3%nat, 0%nat, 0%nat. repeat split.
    + intros j Hj. do 3 (destruct j as [|j]; [reflexivity|]). lia.
    + intros j Hj. lia.
    + intros j Hj. lia.
  - apply (proj1 (proj2 (C7_returns_iff_flags_observed
                           silent_sr dr_AA 0x55 all_ones))).
    intros k _. reflexivity.
Defined.

(** C8 at: every register 0xFFFFFFFF, bit 3. *)
Lemma C8_init_keeps_other_bits_witness :
  0 <= 3 < 32 /\
  exists w',
    spi_init silent_sr dr_AA all_ones = Done tt w' /\
    (3 <> 0 ->
     Z.testbit (mem w' RCC_AHB1ENR) 3
     = Z.testbit (mem all_ones RCC_AHB1ENR) 3) /\
    (3 <> 12 ->
     Z.testbit (mem w' RCC_APB2ENR) 3
     = Z.testbit (mem all_ones RCC_APB2ENR) 3) /\
    (~ 8 <= 3 < 16 ->
     Z.testbit (mem w' GPIOA_MODER) 3
     = Z.testbit (mem all_ones GPIOA_MODER) 3) /\
    (~ 16 <= 3 < 32 ->
     Z.testbit (mem w' GPIOA_AFRL) 3
     = Z.testbit (mem all_ones GPIOA_AFRL) 3).
Proof.
  split; [lia|].
  apply (C8_init_keeps_other_bits silent_sr dr_AA all_ones 3). lia.
Defined.

(** C10 at the same input as C5. *)
Lemma C10_odr_other_bits_kept_witness :
  exists w',
    spi_exchange_data slow_sr dr_AA 10 0x55 all_ones = Done tt w' /\
    forall i, 0 <= i < 32 -> i <> 4 ->
      Z.testbit (mem w' GPIOA_ODR) i = Z.testbit (mem all_ones GPIOA_ODR) i.
Proof.
  exists (exchanged slow_sr dr_AA 0x55 3 0 0 all_ones).
  assert (Hrun : spi_exchange_data slow_sr dr_AA 10 0x55 all_ones
                 = Done tt (exchanged slow_sr dr_AA 0x55 3 0 0 all_ones))
    by (vm_compute; reflexivity).
  split; [exact Hrun|].
  exact (C10_odr_other_bits_kept slow_sr dr_AA 10 0x55 all_ones _ Hrun).
Defined.

(** ** Where the code departs from the wording of its description *)

(** C1 as worded fails.  With the flags ready at once, an exchange of
    0x55 reads 0xAA from the data register under one script and 0x3C
    under the other, and hands its caller the same value both times: no
    reading of that value yields the received byte. *)
Lemma C1_returned_value_ignores_received_byte :
  exists w1 w2,
    spi_exchange_data ready_sr dr_AA 1 0x55 all_ones = Done tt w1 /\
    spi_exchange_data ready_sr dr_3C 1 0x55 all_ones = Done tt w2 /\
    reads_of SPI1_DR (trace w1) = [0xAA] /\
    reads_of SPI1_DR (trace w2) = [0x3C] /\
    ~ exists byte_of : unit -> Z, byte_of tt = 0xAA /\ byte_of tt = 0x3C.
Proof.
  exists (exchanged ready_sr dr_AA 0x55 0 0 0 all_ones),
    (exchanged ready_sr dr_3C 0x55 0 0 0 all_ones).
  split; [vm_compute; reflexivity|]. split; [vm_compute; reflexivity|].
  split; [vm_compute; reflexivity|]. split; [vm_compute; reflexivity|].
  intros (f & Ha & Hb). rewrite Ha in Hb. discriminate Hb.
Qed.

(** C2 as worded fails.  From a mode register and an alternate-function
    register holding 0xFFFFFFFF, [spi_init] writes each register twice,
    and the first write carries the word with the four fields cleared and
    not yet set. *)
Lemma C2_cleared_word_is_written :
  spi_init silent_sr dr_AA all_ones = Done tt (initialized all_ones) /\
  writes_to GPIOA_MODER (trace (initialized all_ones))
    = [0xFFFF00FF; 0xFFFFAAFF] /\
  writes_to GPIOA_AFRL (trace (initialized all_ones))
    = [0x0000FFFF; 0x5555FFFF] /\
  length (writes_to GPIOA_MODER (trace (initialized all_ones))) <> 1%nat /\
  length (writes_to GPIOA_AFRL (trace (initialized all_ones))) <> 1%nat.
Proof.
  assert (Hm : writes_to GPIOA_MODER (trace (initialized all_ones))
               = [0xFFFF00FF; 0xFFFFAAFF]) by (vm_compute; reflexivity).
  assert (Ha : writes_to GPIOA_AFRL (trace (initialized all_ones))
               = [0x0000FFFF; 0x5555FFFF]) by (vm_compute; reflexivity).
  split; [apply init_run|].
  split; [exact Hm|]. split; [exact Ha|].
  rewrite Hm, Ha. split; discriminate.
Qed.

(** ** The further theorems at concrete register files *)

(** X1 at: TXE held clear for three status reads, argument 0x155 (the
    byte written is 0x55). *)
Lemma X1_transmit_on_return_witness :
  exists w',
    spi_transmit slow_sr dr_AA 10 0x155 all_ones = Done tt w' /\
    exists idle1 v1 idle2 v2,
      trace w' =
        trace all_ones ++ idle1 ++
        [EvRead SPI1_SR v1; EvWrite SPI1_DR (wrap8 0x155)] ++
        idle2 ++ [EvRead SPI1_SR v2] /\
      Forall (fun e => exists u, e = EvRead SPI1_SR u /\
                                 Z.testbit u 1 = false) idle1 /\
      Z.testbit v1 1 = true /\
      Forall (fun e => exists u, e = EvRead SPI1_SR u /\
                                 Z.testbit u 7 = true) idle2 /\
      Z.testbit v2 7 = false /\
      mem w' SPI1_DR = wrap8 0x155 /\
      (forall a, a <> SPI1_DR -> mem w' a = mem all_ones a) /\
      dr_count w' = dr_count all_ones.
Proof.
  exists (transmitting slow_sr 0x155 3 1 all_ones).
  assert (Hrun : spi_transmit slow_sr dr_AA 10 0x155 all_ones
                 = Done tt (transmitting slow_sr 0x155 3 1 all_ones))
    by (vm_compute; reflexivity).
  split; [exact Hrun|].
  exact (X1_transmit_on_return slow_sr dr_AA 10 0x155 all_ones _ Hrun).
Defined.

(** X2 at: the slow script (the call returns) and the silent script (it
    does not, and writes nothing). *)
Lemma X2_transmit_returns_iff_witness :
  (exists fuel w',
      spi_transmit slow_sr dr_AA fuel 0x55 all_ones = Done tt w') /\
  (forall fuel,
   exists w',
     spi_transmit silent_sr dr_AA fuel 0x55 all_ones = Stalled w' /\
     (forall a, mem w' a = mem all_ones a) /\
     writes_to SPI1_DR (trace w') = writes_to SPI1_DR (trace all_ones)).
Proof.
  split.
  - apply (proj1 (X2_transmit_returns_iff slow_sr dr_AA 0x55 all_ones)).
    exists 3%nat, 0%nat. repeat split.
    + intros j Hj. do 3 (destruct j as [|j]; [reflexivity|]). lia.
    + intros j Hj. lia.
  - apply (proj2 (X2_transmit_returns_iff silent_sr dr_AA 0x55 all_ones)).
    intros k _. reflexivity.
Defined.

(** X4 at: the ready script (the call returns 0xAA) and the silent
    script (it does not return and does not read the data register). *)
Lemma X4_receive_returns_iff_witness :
  (exists fuel rx w',
      spi_receive ready_sr dr_AA fuel all_ones = Done rx w') /\
  (forall fuel,
   exists w',
     spi_receive silent_sr dr_AA fuel all_ones = Stalled w' /\
     dr_count w' = dr_count all_ones /\
     reads_of SPI1_DR (trace w') = reads_of SPI1_DR (trace all_ones)).
Proof.
  split.
  - apply (proj1 (X4_receive_returns_iff ready_sr dr_AA all_ones)).
    exists 0%nat. split; [intros j Hj; lia|reflexivity].
  - apply (proj2 (proj2 (X4_receive_returns_iff silent_sr dr_AA
                           all_ones))).
    intros k _. reflexivity.
Defined.

(** X5 at: control register 1, an exchange on the slow script. *)
Lemma X5_exchange_keeps_other_registers_witness :
  SPI1_CR1 <> GPIOA_ODR /\ SPI1_CR1 <> SPI1_DR /\
  mem (world_of (spi_exchange_data slow_sr dr_AA 10 0x55 all_ones))
      SPI1_CR1
  = mem all_ones SPI1_CR1.
Proof.
  assert (Ho : SPI1_CR1 <> GPIOA_ODR)
    by (intros H; vm_compute in H; discriminate H).
  assert (Hd : SPI1_CR1 <> SPI1_DR)
    by (intros H; vm_compute in H; discriminate H).
  split; [exact Ho|]. split; [exact Hd|].
  exact (X5_exchange_keeps_other_registers slow_sr dr_AA 10 0x55
           all_ones SPI1_CR1 Ho Hd).
Defined.

(** X10 at: every register 0xFFFFFFFF, pin 5 (SCK). *)
Lemma X10_init_result_witness :
  4 <= 5 <= 7 /\
  exists w',
    spi_init silent_sr dr_AA all_ones = Done tt w' /\
    Z.testbit (mem w' RCC_AHB1ENR) 0 = true /\
    Z.testbit (mem w' RCC_APB2ENR) 12 = true /\
    Z.land (Z.shiftr (mem w' GPIOA_MODER) (2 * 5)) 3 = 2 /\
    Z.land (Z.shiftr (mem w' GPIOA_AFRL) (4 * 5)) 0xF = 5.
Proof.
  split; [lia|].
  apply (X10_init_result silent_sr dr_AA all_ones 5). lia.
Defined.

(** X13 at: the ready script, three turns of the loop. *)
Lemma X13_main_on_ready_peripheral_witness :
  always_ready ready_sr /\ (0 < 1)%nat /\
  exists w',
    main ready_sr dr_AA 3 1 all_ones = Stalled w' /\
    writes_to SPI1_DR (trace w') =
      writes_to SPI1_DR (trace all_ones) ++ repeat 0x55 3 /\
    reads_of SPI1_DR (trace w') =
      reads_of SPI1_DR (trace all_ones)
      ++ map (drv dr_AA) (seq (dr_count all_ones) 3) /\
    length (reads_of SPI1_SR (trace w')) =
      (length (reads_of SPI1_SR (trace all_ones)) + 3 * 3)%nat.
Proof.
  assert (Hr : always_ready ready_sr)
    by (intros k; repeat split; reflexivity).
  assert (Hf : (0 < 1)%nat) by lia.
  split; [exact Hr|]. split; [exact Hf|].
  exact (X13_main_on_ready_peripheral ready_sr dr_AA 3 1 all_ones Hr Hf).
Defined.
